(** * cert-manager-webhook-gandi: the DNS-01 solver of [main.go]

    A shallow embedding of the Gandi webhook solver ([Present], [CleanUp],
    [getGandiClient], [getDomainAndChallengeFQDN]) and the properties its
    specification states about it.

    Go strings are byte strings: they are modelled as [string].  The secret
    store, the LiveDNS client and the formatting verbs whose output depends on
    library code are external collaborators: they are the fields of the
    [Externals] interface, and the solver is a function of any implementation
    of it.  Every call that leaves the process is recorded, with its
    arguments and its reply, in a trace.  The log lines written through
    [klog] are not modelled. *)

From Stdlib Require Import ZArith List Bool Ascii String Lia.
From stdpp Require Import base option list strings gmap pretty.

Import ListNotations.
Local Open Scope string_scope.
Local Open Scope Z_scope.

(** ** Strings: the parts of Go's [strings] package the solver uses *)

Module strings.

(** [strings.HasPrefix]. *)
Fixpoint HasPrefix (s prefix : string) {struct prefix} : bool :=
  match prefix, s with
  | EmptyString, _ => true
  | String _ _, EmptyString => false
  | String a prefix', String b s' => Ascii.eqb a b && HasPrefix s' prefix'
  end.

(** [strings.HasSuffix]:
    [len(s) >= len(suffix) && s[len(s)-len(suffix):] == suffix]. *)
Definition HasSuffix (s suffix : string) : bool :=
  (String.length suffix <=? String.length s)%nat
  && String.eqb
       (substring (String.length s - String.length suffix)
                  (String.length suffix) s)
       suffix.

(** [strings.TrimSuffix]: [s[:len(s)-len(suffix)]] when [s] ends with
    [suffix], and [s] itself otherwise. *)
Definition TrimSuffix (s suffix : string) : string :=
  if HasSuffix s suffix
  then substring 0 (String.length s - String.length suffix) s
  else s.

(** [strings.Contains]. *)
Fixpoint Contains (s substr : string) : bool :=
  HasPrefix s substr
  || match s with
     | EmptyString => false
     | String _ s' => Contains s' substr
     end.

End strings.

(** The one-character strings the messages of the solver need. *)
Definition dot : string := String "."%char EmptyString.
Definition dquote : string := String "034"%char EmptyString.

(** ** Data model *)

(** Go's [error], seen through its [Error()] text. *)
Definition error : Type := string.

(** [cmmeta.LocalObjectReference] and [cmmeta.SecretKeySelector]; the
    embedded reference is the field [LocalObjectRef], and the key of the
    selector is [Key_], apart from the [Key] of the challenge. *)
Record LocalObjectReference : Type :=
  { Name : string }.

Record SecretKeySelector : Type :=
  { LocalObjectRef : LocalObjectReference;
    Key_ : string }.

(** [gandiDNSProviderConfig]. *)
Record gandiDNSProviderConfig : Type :=
  { PATSecretRef : SecretKeySelector }.

(** [extapi.JSON]: the raw bytes of the issuer's configuration. *)
Record JSON : Type :=
  { Raw : list Byte.byte }.

(** The fields of [v1alpha1.ChallengeRequest] the solver reads.  [Config] is
    a pointer in the source: [None] is the nil pointer. *)
Record ChallengeRequest : Type :=
  { ResourceNamespace : string;
    ResolvedZone : string;
    ResolvedFQDN : string;
    Key : string;
    Config : option JSON }.

(** The zero value [gandiDNSProviderConfig{}]. *)
Definition gandiDNSProviderConfig_zero : gandiDNSProviderConfig :=
  {| PATSecretRef :=
       {| LocalObjectRef := {| Name := EmptyString |};
          Key_ := EmptyString |} |}.

(** [getDomainAndChallengeFQDN]. *)
Definition getDomainAndChallengeFQDN (ch : ChallengeRequest) : string * string :=
  let entry := strings.TrimSuffix (ResolvedFQDN ch) (ResolvedZone ch) in
  let entry := strings.TrimSuffix entry dot in
  let domain := strings.TrimSuffix (ResolvedZone ch) dot in
  (entry, domain).

(** [GandiMinTtl]: Gandi reports an error for values below this one. *)
Definition GandiMinTtl : Z := 300.

(** A [corev1.Secret]: its [Data] map (a nil map is the empty map). *)
Record Secret : Type :=
  { Data : gmap string (list Byte.byte) }.

(** A [livedns.LiveDNS] client, built from a [config.Config] that carries
    the personal access token. *)
Record LiveDNS : Type :=
  { PersonalAccessToken : string }.

(** [livedns.DomainRecord]. *)
Record DomainRecord : Type :=
  { RrsetType : string;
    RrsetTTL : Z;
    RrsetName : string;
    RrsetValues : list string }.

(** The reply of the LiveDNS update call; the solver reads its [Code]. *)
Record StandardResponse : Type :=
  { Code : Z;
    Message : string }.

(** ** External collaborators *)

(** What the solver calls outside its own code, over a state [World] of the
    outside (the cluster's secrets, the zones held by Gandi).  A call yields
    its Go results, a value and an [error] ([None] is nil), and the next
    state of the world. *)
Class Externals (World : Type) : Type :=
  { (** the [*kubernetes.Clientset] built by [Initialize] *)
    Clientset : Type;
    (** [json.Unmarshal(raw, &cfg)]: the decoded [cfg] and the error *)
    json_Unmarshal :
      list Byte.byte -> gandiDNSProviderConfig ->
      gandiDNSProviderConfig * option error;
    (** the verb [%q] of [fmt] on a string *)
    fmt_q : string -> string;
    (** the verb [%v] of [fmt] on a nil [*extapi.JSON] *)
    fmt_v_nil_JSON : string;
    (** [client.CoreV1().Secrets(namespace).Get(ctx, name, opts)] *)
    Secrets_Get :
      Clientset -> string -> string -> World ->
      (Secret * option error) * World;
    (** the three LiveDNS calls, on (domain, name, type) *)
    livedns_GetDomainRecordByNameAndType :
      LiveDNS -> string -> string -> string -> World ->
      (DomainRecord * option error) * World;
    livedns_UpdateDomainRecordByNameAndType :
      LiveDNS -> string -> string -> string -> Z -> list string -> World ->
      (StandardResponse * option error) * World;
    livedns_DeleteDomainRecord :
      LiveDNS -> string -> string -> string -> World ->
      option error * World }.

(** [gandiDNSProviderSolver]: [client] is nil until [Initialize] has set it. *)
Record gandiDNSProviderSolver `{Externals World} : Type :=
  { client : option Clientset }.
Arguments gandiDNSProviderSolver World {_}.

(** One call out of the process, with its arguments and its reply. *)
Inductive Event : Type :=
| EvSecretsGet (namespace name : string) (sec : Secret) (err : option error)
| EvGetRecord (cl : LiveDNS) (domain name rtype : string)
    (rec : DomainRecord) (err : option error)
| EvUpdateRecord (cl : LiveDNS) (domain name rtype : string) (ttl : Z)
    (values : list string) (resp : StandardResponse) (err : option error)
| EvDeleteRecord (cl : LiveDNS) (domain name rtype : string)
    (err : option error).

(** A Go function either returns or panics. *)
Inductive outcome (A : Type) : Type :=
| Returned (a : A)
| Panicked.
Arguments Returned {A} a.
Arguments Panicked {A}.

(** ** The solver *)

Section Solver.
Context {World : Type} `{!Externals World}.

(** A computation of the solver: from a state of the world to its outcome,
    the next state and the calls it made, oldest first. *)
Definition M (A : Type) : Type := World -> outcome A * World * list Event.

#[local] Instance M_ret : MRet M := fun A a w => (Returned a, w, []).

#[local] Instance M_bind : MBind M := fun A B k m w =>
  match m w with
  | (Returned a, w1, t1) =>
      match k a w1 with
      | (o, w2, t2) => (o, w2, (t1 ++ t2)%list)
      end
  | (Panicked, w1, t1) => (Panicked, w1, t1)
  end.

(** A method called through a nil pointer. *)
Definition panic {A : Type} : M A := fun w => (Panicked, w, []).

Definition call_Secrets_Get (cs : Clientset) (namespace name : string)
  : M (Secret * option error) := fun w =>
  match Secrets_Get cs namespace name w with
  | ((sec, err), w') => (Returned (sec, err), w', [EvSecretsGet namespace name sec err])
  end.

Definition GetDomainRecordByNameAndType (g : LiveDNS) (domain name rtype : string)
  : M (DomainRecord * option error) := fun w =>
  match livedns_GetDomainRecordByNameAndType g domain name rtype w with
  | ((rec, err), w') =>
      (Returned (rec, err), w', [EvGetRecord g domain name rtype rec err])
  end.

Definition UpdateDomainRecordByNameAndType (g : LiveDNS)
    (domain name rtype : string) (ttl : Z) (values : list string)
  : M (StandardResponse * option error) := fun w =>
  match livedns_UpdateDomainRecordByNameAndType g domain name rtype ttl values w with
  | ((resp, err), w') =>
      (Returned (resp, err), w',
       [EvUpdateRecord g domain name rtype ttl values resp err])
  end.

Definition DeleteDomainRecord (g : LiveDNS) (domain name rtype : string)
  : M (option error) := fun w =>
  match livedns_DeleteDomainRecord g domain name rtype w with
  | (err, w') => (Returned err, w', [EvDeleteRecord g domain name rtype err])
  end.

(** [getGandiClient]: the client, or the error. *)
Definition getGandiClient (c : gandiDNSProviderSolver World)
    (cfgJSON : option JSON) (namespace : string) : M (LiveDNS + error) :=
  let cfg := gandiDNSProviderConfig_zero in
  match cfgJSON with
  | None => mret (inr ("no configuration provided: " ++ fmt_v_nil_JSON))
  | Some cfgJSON =>
    match json_Unmarshal (Raw cfgJSON) cfg with
    | (_, Some err) => mret (inr ("error decoding solver config: " ++ err))
    | (cfg, None) =>
      let secretName := Name (LocalObjectRef (PATSecretRef cfg)) in
      match client c with
      | None => panic
      | Some cs =>
        '(sec, err) ← call_Secrets_Get cs namespace secretName;
        match err with
        | Some err =>
            mret (inr ("unable to get secret `" ++ secretName ++ "`; " ++ err))
        | None =>
          match Data sec !! Key_ (PATSecretRef cfg) with
          | None =>
              mret (inr ("key " ++ fmt_q (Key_ (PATSecretRef cfg))
                         ++ " not found in secret " ++ dquote
                         ++ Name (LocalObjectRef (PATSecretRef cfg))
                         ++ "/" ++ namespace ++ dquote))
          | Some secBytes =>
            let pat := string_of_list_byte secBytes in
            mret (inl {| PersonalAccessToken := pat |})
          end
        end
      end
    end
  end.

(** The test of both operations on the record that was read:
    the name of [domainRecord] is not empty and it has a value. *)
Definition record_found (domainRecord : DomainRecord) : bool :=
  negb (String.eqb (RrsetName domainRecord) EmptyString)
  && (0 <? length (RrsetValues domainRecord))%nat.

(** [Present]. *)
Definition Present (c : gandiDNSProviderSolver World) (ch : ChallengeRequest)
  : M (option error) :=
  r ← getGandiClient c (Config ch) (ResourceNamespace ch);
  match r with
  | inr err => mret (Some ("unable to get Gandi client: " ++ err))
  | inl gandiClient =>
    let '(challengeFQDN, domain) := getDomainAndChallengeFQDN ch in
    '(domainRecord, err) ←
      GetDomainRecordByNameAndType gandiClient domain challengeFQDN "TXT";
    match err with
    | Some err =>
        mret (Some ("present: pre: unable to check TXT record: " ++ err))
    | None =>
      let recordVal := [Key ch] in
      if record_found domainRecord then
        '(resp, err) ←
          UpdateDomainRecordByNameAndType gandiClient domain challengeFQDN
            "TXT" GandiMinTtl recordVal;
        match err with
        | Some err => mret (Some ("unable to change TXT record: " ++ err))
        | None =>
          if negb (Code resp =? 200)
          then mret (Some ("got code " ++ pretty (Code resp)
                           ++ " while trying to change TXT record: " ++ domain))
          else mret None
        end
      else
        '(resp, err) ←
          UpdateDomainRecordByNameAndType gandiClient domain challengeFQDN
            "TXT" GandiMinTtl recordVal;
        match err with
        | Some err => mret (Some ("unable to create TXT record: " ++ err))
        | None =>
          if negb (Code resp =? 200)
          then mret (Some ("got code " ++ pretty (Code resp)
                           ++ " while trying to create TXT record: " ++ domain))
          else mret None
        end
    end
  end.

(** [CleanUp]. *)
Definition CleanUp (c : gandiDNSProviderSolver World) (ch : ChallengeRequest)
  : M (option error) :=
  r ← getGandiClient c (Config ch) (ResourceNamespace ch);
  match r with
  | inr err => mret (Some ("unable to get Gandi client: " ++ err))
  | inl gandiClient =>
    let '(challengeFQDN, domain) := getDomainAndChallengeFQDN ch in
    '(domainRecord, err) ←
      GetDomainRecordByNameAndType gandiClient domain challengeFQDN "TXT";
    match err with
    | Some err =>
        mret (Some ("cleanup: pre: unable to check TXT record: " ++ err))
    | None =>
      if record_found domainRecord then
        err ← DeleteDomainRecord gandiClient domain challengeFQDN "TXT";
        match err with
        | Some err => mret (Some ("unable to remove TXT record: " ++ err))
        | None => mret None
        end
      else mret None
    end
  end.

End Solver.

(** ** Traces *)

(** The outcome, the final world and the trace of a run. *)
Definition outcome_of {A W : Type} (r : outcome A * W * list Event) : outcome A :=
  r.1.1.
Definition world_of {A W : Type} (r : outcome A * W * list Event) : W :=
  r.1.2.
Definition trace_of {A W : Type} (r : outcome A * W * list Event) : list Event :=
  r.2.

(** A change of the records held by the provider: an upsert of the record
    (name, type, TTL, values) in a domain, or the deletion of the records
    at a (domain, name, type). *)
Inductive Mutation : Type :=
| Upsert (domain name rtype : string) (ttl : Z) (values : list string)
| Delete (domain name rtype : string).

Definition mutation_of (ev : Event) : option Mutation :=
  match ev with
  | EvUpdateRecord _ domain name rtype ttl values _ _ =>
      Some (Upsert domain name rtype ttl values)
  | EvDeleteRecord _ domain name rtype _ =>
      Some (Delete domain name rtype)
  | EvSecretsGet _ _ _ _ | EvGetRecord _ _ _ _ _ _ => None
  end.

(** The mutations a trace asked for, in order. *)
Definition mutations (t : list Event) : list Mutation :=
  omap mutation_of t.

(** The (domain, name, type) key a mutation is about. *)
Definition mutation_key (m : Mutation) : string * string * string :=
  match m with
  | Upsert domain name rtype _ _ | Delete domain name rtype =>
      (domain, name, rtype)
  end.

(** The records the provider returned to the reads of a trace. *)
Definition reads (t : list Event) : list DomainRecord :=
  omap (fun ev =>
          match ev with
          | EvGetRecord _ _ _ _ rec None => Some rec
          | _ => None
          end) t.

(** Every mutation of [t] comes after a read, answered without an error, of
    the key it is about. *)
Definition read_precedes_mutations (t : list Event) : Prop :=
  forall (pre post : list Event) (ev : Event) (m : Mutation),
    t = (pre ++ ev :: post)%list ->
    mutation_of ev = Some m ->
    exists cl rec,
      In (EvGetRecord cl (mutation_key m).1.1 (mutation_key m).1.2
            (mutation_key m).2 rec None) pre.

(** A call the outside accepted: no error, and status 200 for an update. *)
Definition accepted (ev : Event) : bool :=
  match ev with
  | EvSecretsGet _ _ _ err | EvGetRecord _ _ _ _ _ err
  | EvDeleteRecord _ _ _ _ err => bool_decide (err = None)
  | EvUpdateRecord _ _ _ _ _ _ resp err =>
      bool_decide (err = None) && (Code resp =? 200)
  end.

(** The provider's update is an upsert that replaces: after an update that
    was answered with status 200, the records the provider holds at the key
    are the one record that was sent.  [records_at w domain name rtype] are
    the records held at a key in the world [w]. *)
Definition upsert_replaces `{Externals World}
    (records_at : World -> string -> string -> string -> list DomainRecord)
  : Prop :=
  forall g domain name rtype ttl values w resp w',
    livedns_UpdateDomainRecordByNameAndType g domain name rtype ttl values w
      = ((resp, None), w') ->
    Code resp = 200 ->
    records_at w' domain name rtype
      = [ {| RrsetType := rtype; RrsetTTL := ttl; RrsetName := name;
             RrsetValues := values |} ].

(** ** The runs of the two operations

    The paths through [Present] and [CleanUp], one constructor per [return]
    of the source (and one for the nil [client]), each with the replies of
    the collaborators that lead to it.  [Present_runs] and [CleanUp_runs]
    below show that every run of the functions is one of them. *)

Section Runs.
Context {World : Type} `{!Externals World}.
Variables (c : gandiDNSProviderSolver World) (ch : ChallengeRequest).

Let challengeFQDN : string := (getDomainAndChallengeFQDN ch).1.
Let domain : string := (getDomainAndChallengeFQDN ch).2.

(** The verb of the messages of [Present]: the first branch changes, the
    second creates. *)
Definition branch_verb (found : bool) : string :=
  if found then "change" else "create".

Inductive present_run (w : World)
  : outcome (option error) * World * list Event -> Prop :=
| present_panic w1 t :
    getGandiClient c (Config ch) (ResourceNamespace ch) w = (Panicked, w1, t) ->
    present_run w (Panicked, w1, t)
| present_no_client err w1 t :
    getGandiClient c (Config ch) (ResourceNamespace ch) w
      = (Returned (inr err), w1, t) ->
    present_run w
      (Returned (Some ("unable to get Gandi client: " ++ err)), w1, t)
| present_read_failed g w1 t rec err w2 :
    getGandiClient c (Config ch) (ResourceNamespace ch) w
      = (Returned (inl g), w1, t) ->
    livedns_GetDomainRecordByNameAndType g domain challengeFQDN "TXT" w1
      = ((rec, Some err), w2) ->
    present_run w
      (Returned (Some ("present: pre: unable to check TXT record: " ++ err)),
       w2,
       (t ++ [EvGetRecord g domain challengeFQDN "TXT" rec (Some err)])%list)
| present_write_failed g w1 t rec w2 resp err w3 :
    getGandiClient c (Config ch) (ResourceNamespace ch) w
      = (Returned (inl g), w1, t) ->
    livedns_GetDomainRecordByNameAndType g domain challengeFQDN "TXT" w1
      = ((rec, None), w2) ->
    livedns_UpdateDomainRecordByNameAndType g domain challengeFQDN "TXT"
      GandiMinTtl [Key ch] w2 = ((resp, Some err), w3) ->
    present_run w
      (Returned (Some ("unable to " ++ branch_verb (record_found rec)
                       ++ " TXT record: " ++ err)),
       w3,
       (t ++ [EvGetRecord g domain challengeFQDN "TXT" rec None;
              EvUpdateRecord g domain challengeFQDN "TXT" GandiMinTtl
                [Key ch] resp (Some err)])%list)
| present_rejected g w1 t rec w2 resp w3 :
    getGandiClient c (Config ch) (ResourceNamespace ch) w
      = (Returned (inl g), w1, t) ->
    livedns_GetDomainRecordByNameAndType g domain challengeFQDN "TXT" w1
      = ((rec, None), w2) ->
    livedns_UpdateDomainRecordByNameAndType g domain challengeFQDN "TXT"
      GandiMinTtl [Key ch] w2 = ((resp, None), w3) ->
    Code resp <> 200 ->
    present_run w
      (Returned (Some ("got code " ++ pretty (Code resp)
                       ++ " while trying to "
                       ++ branch_verb (record_found rec)
                       ++ " TXT record: " ++ domain)),
       w3,
       (t ++ [EvGetRecord g domain challengeFQDN "TXT" rec None;
              EvUpdateRecord g domain challengeFQDN "TXT" GandiMinTtl
                [Key ch] resp None])%list)
| present_done g w1 t rec w2 resp w3 :
    getGandiClient c (Config ch) (ResourceNamespace ch) w
      = (Returned (inl g), w1, t) ->
    livedns_GetDomainRecordByNameAndType g domain challengeFQDN "TXT" w1
      = ((rec, None), w2) ->
    livedns_UpdateDomainRecordByNameAndType g domain challengeFQDN "TXT"
      GandiMinTtl [Key ch] w2 = ((resp, None), w3) ->
    Code resp = 200 ->
    present_run w
      (Returned None, w3,
       (t ++ [EvGetRecord g domain challengeFQDN "TXT" rec None;
              EvUpdateRecord g domain challengeFQDN "TXT" GandiMinTtl
                [Key ch] resp None])%list).

Inductive cleanup_run (w : World)
  : outcome (option error) * World * list Event -> Prop :=
| cleanup_panic w1 t :
    getGandiClient c (Config ch) (ResourceNamespace ch) w = (Panicked, w1, t) ->
    cleanup_run w (Panicked, w1, t)
| cleanup_no_client err w1 t :
    getGandiClient c (Config ch) (ResourceNamespace ch) w
      = (Returned (inr err), w1, t) ->
    cleanup_run w
      (Returned (Some ("unable to get Gandi client: " ++ err)), w1, t)
| cleanup_read_failed g w1 t rec err w2 :
    getGandiClient c (Config ch) (ResourceNamespace ch) w
      = (Returned (inl g), w1, t) ->
    livedns_GetDomainRecordByNameAndType g domain challengeFQDN "TXT" w1
      = ((rec, Some err), w2) ->
    cleanup_run w
      (Returned (Some ("cleanup: pre: unable to check TXT record: " ++ err)),
       w2,
       (t ++ [EvGetRecord g domain challengeFQDN "TXT" rec (Some err)])%list)
| cleanup_nothing g w1 t rec w2 :
    getGandiClient c (Config ch) (ResourceNamespace ch) w
      = (Returned (inl g), w1, t) ->
    livedns_GetDomainRecordByNameAndType g domain challengeFQDN "TXT" w1
      = ((rec, None), w2) ->
    record_found rec = false ->
    cleanup_run w
      (Returned None, w2,
       (t ++ [EvGetRecord g domain challengeFQDN "TXT" rec None])%list)
| cleanup_delete g w1 t rec w2 err w3 :
    getGandiClient c (Config ch) (ResourceNamespace ch) w
      = (Returned (inl g), w1, t) ->
    livedns_GetDomainRecordByNameAndType g domain challengeFQDN "TXT" w1
      = ((rec, None), w2) ->
    record_found rec = true ->
    livedns_DeleteDomainRecord g domain challengeFQDN "TXT" w2 = (err, w3) ->
    cleanup_run w
      (Returned (append "unable to remove TXT record: " <$> err), w3,
       (t ++ [EvGetRecord g domain challengeFQDN "TXT" rec None;
              EvDeleteRecord g domain challengeFQDN "TXT" err])%list).

End Runs.

(** ** Start-up and the runs of [getGandiClient] *)

Section Startup.
Context {World : Type} `{!Externals World}.

(** [Initialize].  [kubernetes_NewForConfig] is [kubernetes.NewForConfig]:
    the [*Clientset] it builds ([None] is nil) and its error.  The solver
    is returned with the error, since the method assigns to [c.client]. *)
Definition Initialize {RestConfig : Type}
    (kubernetes_NewForConfig : RestConfig -> option Clientset * option error)
    (c : gandiDNSProviderSolver World) (kubeClientConfig : RestConfig)
  : gandiDNSProviderSolver World * option error :=
  match kubernetes_NewForConfig kubeClientConfig with
  | (_, Some err) => (c, Some ("unable to get k8s client: " ++ err))
  | (cl, None) => ({| client := cl |}, None)
  end.

(** The paths through [getGandiClient], one per [return] of the source and
    one for the nil [client]. *)
Inductive client_run (c : gandiDNSProviderSolver World)
    (cfgJSON : option JSON) (namespace : string) (w : World)
  : outcome (LiveDNS + error) * World * list Event -> Prop :=
| client_no_config :
    cfgJSON = None ->
    client_run c cfgJSON namespace w
      (Returned (inr ("no configuration provided: " ++ fmt_v_nil_JSON)), w, [])
| client_bad_config j cfg err :
    cfgJSON = Some j ->
    json_Unmarshal (Raw j) gandiDNSProviderConfig_zero = (cfg, Some err) ->
    client_run c cfgJSON namespace w
      (Returned (inr ("error decoding solver config: " ++ err)), w, [])
| client_nil j cfg :
    cfgJSON = Some j ->
    json_Unmarshal (Raw j) gandiDNSProviderConfig_zero = (cfg, None) ->
    client c = None ->
    client_run c cfgJSON namespace w (Panicked, w, [])
| client_secret_failed j cfg cs sec err w1 :
    cfgJSON = Some j ->
    json_Unmarshal (Raw j) gandiDNSProviderConfig_zero = (cfg, None) ->
    client c = Some cs ->
    Secrets_Get cs namespace (Name (LocalObjectRef (PATSecretRef cfg))) w
      = ((sec, Some err), w1) ->
    client_run c cfgJSON namespace w
      (Returned (inr ("unable to get secret `"
                      ++ Name (LocalObjectRef (PATSecretRef cfg))
                      ++ "`; " ++ err)),
       w1,
       [EvSecretsGet namespace (Name (LocalObjectRef (PATSecretRef cfg)))
          sec (Some err)])
| client_key_missing j cfg cs sec w1 :
    cfgJSON = Some j ->
    json_Unmarshal (Raw j) gandiDNSProviderConfig_zero = (cfg, None) ->
    client c = Some cs ->
    Secrets_Get cs namespace (Name (LocalObjectRef (PATSecretRef cfg))) w
      = ((sec, None), w1) ->
    Data sec !! Key_ (PATSecretRef cfg) = None ->
    client_run c cfgJSON namespace w
      (Returned (inr ("key " ++ fmt_q (Key_ (PATSecretRef cfg))
                      ++ " not found in secret " ++ dquote
                      ++ Name (LocalObjectRef (PATSecretRef cfg))
                      ++ "/" ++ namespace ++ dquote)),
       w1,
       [EvSecretsGet namespace (Name (LocalObjectRef (PATSecretRef cfg)))
          sec None])
| client_built j cfg cs sec w1 secBytes :
    cfgJSON = Some j ->
    json_Unmarshal (Raw j) gandiDNSProviderConfig_zero = (cfg, None) ->
    client c = Some cs ->
    Secrets_Get cs namespace (Name (LocalObjectRef (PATSecretRef cfg))) w
      = ((sec, None), w1) ->
    Data sec !! Key_ (PATSecretRef cfg) = Some secBytes ->
    client_run c cfgJSON namespace w
      (Returned (inl {| PersonalAccessToken := string_of_list_byte secBytes |}),
       w1,
       [EvSecretsGet namespace (Name (LocalObjectRef (PATSecretRef cfg)))
          sec None]).

(** The deletion of the provider removes: after a deletion that returned no
    error, the provider holds no record at the key. *)
Definition delete_removes
    (records_at : World -> string -> string -> string -> list DomainRecord)
  : Prop :=
  forall g domain name rtype w w',
    livedns_DeleteDomainRecord g domain name rtype w = (None, w') ->
    records_at w' domain name rtype = [].

(** The read of the provider reports: it changes no record, and when
    records are held at the key it returns the first of them. *)
Definition read_reports
    (records_at : World -> string -> string -> string -> list DomainRecord)
  : Prop :=
  forall g domain name rtype w rec w',
    livedns_GetDomainRecordByNameAndType g domain name rtype w
      = ((rec, None), w') ->
    (forall d n ty, records_at w' d n ty = records_at w d n ty)
    /\ (forall r rs, records_at w domain name rtype = r :: rs -> rec = r).

(** A call to the secret store changes no record of the provider. *)
Definition secrets_keep_records
    (records_at : World -> string -> string -> string -> list DomainRecord)
  : Prop :=
  forall cs namespace name w r w',
    Secrets_Get cs namespace name w = (r, w') ->
    forall d n ty, records_at w' d n ty = records_at w d n ty.

End Startup.

(** The client through which a call to the provider is made. *)
Definition event_client (ev : Event) : option LiveDNS :=
  match ev with
  | EvSecretsGet _ _ _ _ => None
  | EvGetRecord cl _ _ _ _ _ | EvUpdateRecord cl _ _ _ _ _ _ _
  | EvDeleteRecord cl _ _ _ _ => Some cl
  end.

(** ** A model of the collaborators

    One implementation of [Externals], on which the solver runs by
    evaluation: a secret store keyed by (namespace, name) and a provider
    that holds a list of records per domain, checks the token of the
    client, and answers 403 to the updates of a zone that is locked. *)

Module Model.

Record World : Type :=
  { secrets : gmap (string * string) Secret;
    token : string;
    locked : bool;
    rrsets : list (string * DomainRecord) }.

Definition rrset_key (x : string * DomainRecord) : string * string * string :=
  (x.1, RrsetName x.2, RrsetType x.2).

Definition records_at (w : World) (domain name rtype : string)
  : list DomainRecord :=
  (filter (fun x => rrset_key x = (domain, name, rtype)) (rrsets w)).*2.

Definition with_rrsets (w : World) (l : list (string * DomainRecord)) : World :=
  {| secrets := secrets w; token := token w; locked := locked w;
     rrsets := l |}.

Definition DomainRecord_zero : DomainRecord :=
  {| RrsetType := EmptyString; RrsetTTL := 0; RrsetName := EmptyString;
     RrsetValues := [] |}.

Definition StandardResponse_zero : StandardResponse :=
  {| Code := 0; Message := EmptyString |}.

Definition unauthorized : error := "401: Unauthorized".

Definition secrets_get (_ : unit) (namespace name : string) (w : World)
  : (Secret * option error) * World :=
  match secrets w !! (namespace, name) with
  | Some sec => ((sec, None), w)
  | None => (({| Data := ∅ |}, Some ("secrets " ++ name ++ " not found")), w)
  end.

(** A name without records is answered with the zero record. *)
Definition get_record (g : LiveDNS)
    (domain name rtype : string) (w : World)
  : (DomainRecord * option error) * World :=
  if String.eqb (PersonalAccessToken g) (token w) then
    match records_at w domain name rtype with
    | rec :: _ => ((rec, None), w)
    | [] => ((DomainRecord_zero, None), w)
    end
  else ((DomainRecord_zero, Some unauthorized), w).

(** The update replaces whatever is held at the key by the record sent. *)
Definition update_record (g : LiveDNS)
    (domain name rtype : string) (ttl : Z) (values : list string) (w : World)
  : (StandardResponse * option error) * World :=
  if String.eqb (PersonalAccessToken g) (token w) then
    if locked w then (({| Code := 403; Message := "Forbidden" |}, None), w)
    else
      (({| Code := 200; Message := "DNS Record Created" |}, None),
       with_rrsets w
         ((domain, {| RrsetType := rtype; RrsetTTL := ttl; RrsetName := name;
                      RrsetValues := values |})
          :: filter (fun x => rrset_key x <> (domain, name, rtype)) (rrsets w)))
  else ((StandardResponse_zero, Some unauthorized), w).

Definition delete_record (g : LiveDNS) (domain name rtype : string)
    (w : World) : option error * World :=
  if String.eqb (PersonalAccessToken g) (token w) then
    (None,
     with_rrsets w
       (filter (fun x => rrset_key x <> (domain, name, rtype)) (rrsets w)))
  else (Some unauthorized, w).

(** The configuration of the end-to-end scenario,
    [{"PATSecretRef":{"name":"gandi-creds","key":"token"}}]. *)
Definition scenario_config : string :=
  "{" ++ dquote ++ "PATSecretRef" ++ dquote ++ ":{"
  ++ dquote ++ "name" ++ dquote ++ ":" ++ dquote ++ "gandi-creds" ++ dquote
  ++ "," ++ dquote ++ "key" ++ dquote ++ ":" ++ dquote ++ "token" ++ dquote
  ++ "}}".

(** A decoder that knows the configuration of the scenario and rejects
    every other input. *)
Definition unmarshal (raw : list Byte.byte) (cfg : gandiDNSProviderConfig)
  : gandiDNSProviderConfig * option error :=
  if String.eqb (string_of_list_byte raw) scenario_config then
    ({| PATSecretRef :=
          {| LocalObjectRef := {| Name := "gandi-creds" |};
             Key_ := "token" |} |}, None)
  else (cfg, Some "invalid character looking for beginning of value").

(** [%q] on a string of printable ASCII without quotes or backslashes. *)
Definition quote (s : string) : string := dquote ++ s ++ dquote.

#[global] Instance externals : Externals World :=
  {| Clientset := unit;
     json_Unmarshal := unmarshal;
     fmt_q := quote;
     fmt_v_nil_JSON := "nil";
     Secrets_Get := secrets_get;
     livedns_GetDomainRecordByNameAndType := get_record;
     livedns_UpdateDomainRecordByNameAndType := update_record;
     livedns_DeleteDomainRecord := delete_record |}.

(** The request of the end-to-end scenario. *)
Definition request : ChallengeRequest :=
  {| ResourceNamespace := "ns1";
     ResolvedZone := "example.com.";
     ResolvedFQDN := "_acme-challenge.example.com.";
     Key := "abc123";
     Config := Some {| Raw := list_byte_of_string scenario_config |} |}.

Definition solver : gandiDNSProviderSolver World :=
  {| client := Some tt |}.

(** A world that holds the secret of the scenario and the records [l]. *)
Definition world (l : list (string * DomainRecord)) : World :=
  {| secrets :=
       {[ ("ns1", "gandi-creds") :=
            {| Data := {[ "token" := list_byte_of_string "s3cr3t" ]} |} ]};
     token := "s3cr3t";
     locked := false;
     rrsets := l |}.


(** A world whose secret holds the token under another key. *)
Definition keyless_secret : Secret :=
  {| Data := {[ "pat" := list_byte_of_string "s3cr3t" ]} |}.

Definition keyless_world : World :=
  {| secrets := {[ ("ns1", "gandi-creds") := keyless_secret ]};
     token := "s3cr3t";
     locked := false;
     rrsets := [] |}.

(** The client that [getGandiClient] builds in [world l]. *)
Definition gandiClient : LiveDNS := {| PersonalAccessToken := "s3cr3t" |}.

(** The request of the scenario without its configuration. *)
Definition request_without_config : ChallengeRequest :=
  {| ResourceNamespace := "ns1";
     ResolvedZone := "example.com.";
     ResolvedFQDN := "_acme-challenge.example.com.";
     Key := "abc123";
     Config := None |}.

(** A solver on which [Initialize] has not run. *)
Definition solver_without_client : gandiDNSProviderSolver World :=
  {| client := None |}.

(** Two stale records at the challenge name, and one elsewhere. *)
Definition stale : list (string * DomainRecord) :=
  [ ("example.com",
     {| RrsetType := "TXT"; RrsetTTL := 600; RrsetName := "_acme-challenge";
        RrsetValues := ["old1"; "old2"] |});
    ("example.com",
     {| RrsetType := "A"; RrsetTTL := 600; RrsetName := "www";
        RrsetValues := ["192.0.2.1"] |});
    ("example.com",
     {| RrsetType := "TXT"; RrsetTTL := 300; RrsetName := "_acme-challenge";
        RrsetValues := ["old3"] |}) ].

End Model.

(** Further worlds and requests for the model. *)

Module Cases.

(** A request whose configuration is not JSON. *)
Definition request_with_bad_config : ChallengeRequest :=
  {| ResourceNamespace := "ns1";
     ResolvedZone := "example.com.";
     ResolvedFQDN := "_acme-challenge.example.com.";
     Key := "abc123";
     Config := Some {| Raw := list_byte_of_string "PATSecretRef" |} |}.

(** A world without the secret. *)
Definition world_without_secret : Model.World :=
  {| Model.secrets := ∅; Model.token := "s3cr3t"; Model.locked := false;
     Model.rrsets := [] |}.

(** A world in which the token of the secret is no longer the one that the
    provider accepts. *)
Definition world_with_stale_token : Model.World :=
  {| Model.secrets := Model.secrets (Model.world []);
     Model.token := "r0t4t3d"; Model.locked := false;
     Model.rrsets := Model.stale |}.

(** The collaborators of the model, with an update call that times out
    and yet carries a response with the code 200. *)
Definition timeout_response : StandardResponse :=
  {| Code := 200; Message := EmptyString |}.

Definition flaky : Externals Model.World :=
  {| Clientset := unit;
     json_Unmarshal := Model.unmarshal;
     fmt_q := Model.quote;
     fmt_v_nil_JSON := "nil";
     Secrets_Get := Model.secrets_get;
     livedns_GetDomainRecordByNameAndType := Model.get_record;
     livedns_UpdateDomainRecordByNameAndType :=
       fun _ _ _ _ _ _ w => ((timeout_response, Some "context deadline exceeded"), w);
     livedns_DeleteDomainRecord := Model.delete_record |}.

Definition flaky_solver : @gandiDNSProviderSolver Model.World flaky :=
  @Build_gandiDNSProviderSolver Model.World flaky (Some tt).




(** [kubernetes.NewForConfig] on a configuration that is [true] when the
    cluster can be reached. *)
Definition NewForConfig (reachable : bool)
  : option (@Clientset Model.World Model.externals) * option error :=
  if reachable then (Some tt, None)
  else (None, Some "unable to load in-cluster configuration").

End Cases.

(** * Properties *)

(** ** Suffixes, prefixes and substrings *)

Section StringFacts.
Local Open Scope nat_scope.
Implicit Types s p z : string.

(** The two equations of [++] on strings. *)
Lemma app_nil_s z : EmptyString ++ z = z.
Proof. reflexivity. Qed.

Lemma app_cons_s a s z : String a s ++ z = String a (s ++ z).
Proof. reflexivity. Qed.

Ltac by_bytes s :=
  induction s as [|? s IH]; rewrite ?app_nil_s, ?app_cons_s; simpl;
  rewrite ?IH; try done.

Lemma length_app s z :
  String.length (s ++ z) = String.length s + String.length z.
Proof. by_bytes s. Qed.

Lemma app_assoc_s s p z : (s ++ p) ++ z = s ++ (p ++ z).
Proof. by_bytes s. Qed.

Lemma substring_whole s : substring 0 (String.length s) s = s.
Proof. by_bytes s. Qed.

Lemma substring_head p z : substring 0 (String.length p) (p ++ z) = p.
Proof. by_bytes p. by destruct z. Qed.

Lemma substring_tail p z :
  substring (String.length p) (String.length z) (p ++ z) = z.
Proof. by_bytes p. apply substring_whole. Qed.

(** A string is its first [n] bytes followed by the rest. *)
Lemma substring_split s n :
  n <= String.length s ->
  s = substring 0 n s ++ substring n (String.length s - n) s.
Proof.
  revert n; induction s as [|a s IH]; intros [|n] Hn; simpl in *;
    rewrite ?app_nil_s, ?app_cons_s; try lia; try done.
  - by rewrite substring_whole.
  - f_equal. apply IH. lia.
Qed.

Lemma HasSuffix_app p z : strings.HasSuffix (p ++ z) z = true.
Proof.
  unfold strings.HasSuffix. rewrite length_app.
  replace (String.length p + String.length z - String.length z)
    with (String.length p) by lia.
  rewrite substring_tail, String.eqb_refl, andb_true_r.
  apply Nat.leb_le. lia.
Qed.

Lemma HasSuffix_inv s z :
  strings.HasSuffix s z = true -> exists p, s = p ++ z.
Proof.
  unfold strings.HasSuffix. intros [Hlen Heq]%andb_true_iff.
  apply Nat.leb_le in Hlen. apply String.eqb_eq in Heq.
  exists (substring 0 (String.length s - String.length z) s).
  pose proof (substring_split s (String.length s - String.length z)) as H.
  replace (String.length s - (String.length s - String.length z))
    with (String.length z) in H by lia.
  rewrite Heq in H. apply H. lia.
Qed.

Lemma TrimSuffix_app p z : strings.TrimSuffix (p ++ z) z = p.
Proof.
  unfold strings.TrimSuffix. rewrite HasSuffix_app, length_app.
  replace (String.length p + String.length z - String.length z)
    with (String.length p) by lia.
  apply substring_head.
Qed.

Lemma TrimSuffix_other s z :
  (~ exists p, s = p ++ z) -> strings.TrimSuffix s z = s.
Proof.
  intros Hno. unfold strings.TrimSuffix.
  destruct (strings.HasSuffix s z) eqn:Hs; [|done].
  destruct Hno. by apply HasSuffix_inv.
Qed.

Lemma HasPrefix_app p z : strings.HasPrefix (p ++ z) p = true.
Proof.
  induction p as [|a p IH]; [done|].
  rewrite app_cons_s.
  change (Ascii.eqb a a && strings.HasPrefix (p ++ z) p = true).
  by rewrite Ascii.eqb_refl, IH.
Qed.

Lemma Contains_app p s z : strings.Contains (p ++ s ++ z) s = true.
Proof.
  induction p as [|a p IH]; rewrite ?app_nil_s, ?app_cons_s.
  - destruct (s ++ z) eqn:E; simpl.
    + destruct s; [done | discriminate].
    + rewrite <- E, HasPrefix_app. done.
  - simpl. rewrite IH. apply orb_true_r.
Qed.



End StringFacts.

(** ** The split of the challenge name *)

(** C2.  When the zone is [d] followed by a dot and the FQDN is [p] followed
    by the zone, the split returns [d] as the domain and, as the record name,
    [p] without its trailing dot ([p] itself when it has none); the FQDN
    [_acme-challenge.example.com.] in the zone [example.com.] is split into
    [_acme-challenge] and [example.com]. *)
Theorem getDomainAndChallengeFQDN_split :
  (forall (ch : ChallengeRequest) (p d : string),
      ResolvedZone ch = d ++ dot ->
      ResolvedFQDN ch = p ++ ResolvedZone ch ->
      (getDomainAndChallengeFQDN ch).2 = d
      /\ (forall q, p = q ++ dot -> (getDomainAndChallengeFQDN ch).1 = q)
      /\ ((~ exists q, p = q ++ dot) -> (getDomainAndChallengeFQDN ch).1 = p))
  /\ (forall (namespace key : string) (cfg : option JSON),
        getDomainAndChallengeFQDN
          {| ResourceNamespace := namespace;
             ResolvedZone := "example.com.";
             ResolvedFQDN := "_acme-challenge.example.com.";
             Key := key;
             Config := cfg |}
        = ("_acme-challenge", "example.com")).
Proof.
  split; [|reflexivity].
  intros ch p d Hz Hf. unfold getDomainAndChallengeFQDN; simpl.
  rewrite Hf, TrimSuffix_app, Hz, TrimSuffix_app.
  repeat split.
  - intros q ->. apply TrimSuffix_app.
  - apply TrimSuffix_other.
Qed.

Lemma getDomainAndChallengeFQDN_split_witness :
  (getDomainAndChallengeFQDN Model.request).2 = "example.com"
  /\ (getDomainAndChallengeFQDN Model.request).1 = "_acme-challenge".
Proof.
  destruct (proj1 getDomainAndChallengeFQDN_split Model.request
              "_acme-challenge." "example.com" eq_refl eq_refl)
    as (Hd & Hn & _).
  split; [exact Hd | exact (Hn "_acme-challenge" eq_refl)].
Defined.

(** ** Every run is one of the paths *)

Section SolverFacts.
Context {World : Type} `{!Externals World}.
Implicit Types (c : gandiDNSProviderSolver World) (ch : ChallengeRequest).
Implicit Types (w : World) (t : list Event).

(** Unfolds the monad and names the reply of the next call. *)
Ltac step_call :=
  unfold mbind, M_bind, mret, M_ret, panic, call_Secrets_Get,
    GetDomainRecordByNameAndType, UpdateDomainRecordByNameAndType,
    DeleteDomainRecord;
  match goal with
  | |- context [Secrets_Get ?cs ?ns ?n ?w] =>
      destruct (Secrets_Get cs ns n w) as [[? [?|]] ?] eqn:?
  | |- context [livedns_GetDomainRecordByNameAndType ?g ?d ?n ?ty ?w] =>
      destruct (livedns_GetDomainRecordByNameAndType g d n ty w)
        as [[? [?|]] ?] eqn:?
  | |- context [livedns_UpdateDomainRecordByNameAndType ?g ?d ?n ?ty ?ttl ?vs ?w] =>
      destruct (livedns_UpdateDomainRecordByNameAndType g d n ty ttl vs w)
        as [[? [?|]] ?] eqn:?
  | |- context [livedns_DeleteDomainRecord ?g ?d ?n ?ty ?w] =>
      destruct (livedns_DeleteDomainRecord g d n ty w) as [[?|] ?] eqn:?
  end.

(** [getGandiClient] calls nothing but the secret store, once at most. *)
Lemma getGandiClient_trace c cfgJSON namespace w :
  let r := getGandiClient c cfgJSON namespace w in
  (trace_of r = [] /\ world_of r = w)
  \/ exists name sec err, trace_of r = [EvSecretsGet namespace name sec err].
Proof.
  unfold getGandiClient.
  destruct cfgJSON as [j|]; [|by left].
  destruct (json_Unmarshal (Raw j) gandiDNSProviderConfig_zero) as [cfg [e|]];
    [by left|].
  destruct (client c) as [cs|]; [|by left].
  right. step_call; simpl; [by eauto|].
  destruct (Data _ !! _); simpl; eauto.
Qed.

Lemma Present_runs c ch w : present_run c ch w (Present c ch w).
Proof.
  unfold Present.
  unfold mbind at 1, M_bind at 1.
  destruct (getGandiClient c (Config ch) (ResourceNamespace ch) w)
    as [[[[g|err]|] w1] t] eqn:Hclient.
  - destruct (getDomainAndChallengeFQDN ch) as [name domain] eqn:Hsplit.
    assert (name = (getDomainAndChallengeFQDN ch).1) as -> by (by rewrite Hsplit).
    assert (domain = (getDomainAndChallengeFQDN ch).2) as -> by (by rewrite Hsplit).
    clear Hsplit. step_call.
    + rewrite app_nil_r. by eapply present_read_failed.
    + destruct (record_found d) eqn:Hfound; step_call;
        try destruct (Z.eqb_spec (Code s) 200) as [Hcode|Hcode]; simpl;
        rewrite ?app_nil_r.
      all: match goal with
           | Hr : livedns_GetDomainRecordByNameAndType _ _ _ _ _ = _,
             Hu : livedns_UpdateDomainRecordByNameAndType _ _ _ _ _ _ _ = _
             |- _ =>
               first
                 [ pose proof (present_write_failed _ _ _ _ _ _ _ _ _ _ _
                                 Hclient Hr Hu) as P
                 | pose proof (present_done _ _ _ _ _ _ _ _ _ _
                                 Hclient Hr Hu Hcode) as P
                 | pose proof (present_rejected _ _ _ _ _ _ _ _ _ _
                                 Hclient Hr Hu Hcode) as P ];
               rewrite ?Hfound in P; exact P
           end.
  - simpl. rewrite app_nil_r. by apply present_no_client.
  - by apply present_panic.
Qed.

Lemma CleanUp_runs c ch w : cleanup_run c ch w (CleanUp c ch w).
Proof.
  unfold CleanUp.
  unfold mbind at 1, M_bind at 1.
  destruct (getGandiClient c (Config ch) (ResourceNamespace ch) w)
    as [[[[g|err]|] w1] t] eqn:Hclient.
  - destruct (getDomainAndChallengeFQDN ch) as [name domain] eqn:Hsplit.
    assert (name = (getDomainAndChallengeFQDN ch).1) as -> by (by rewrite Hsplit).
    assert (domain = (getDomainAndChallengeFQDN ch).2) as -> by (by rewrite Hsplit).
    clear Hsplit. step_call.
    + rewrite app_nil_r. by eapply cleanup_read_failed.
    + destruct (record_found d) eqn:Hfound.
      * step_call; simpl; rewrite ?app_nil_r.
        -- by eapply (cleanup_delete _ _ _ _ _ _ _ _ (Some _)).
        -- by eapply (cleanup_delete _ _ _ _ _ _ _ _ None).
      * simpl. rewrite ?app_nil_r. by eapply cleanup_nothing.
  - simpl. rewrite app_nil_r. by apply cleanup_no_client.
  - by apply cleanup_panic.
Qed.

(** ** What the traces hold *)

Lemma client_trace_secrets c cfgJSON namespace w ev :
  In ev (trace_of (getGandiClient c cfgJSON namespace w)) ->
  exists name sec err, ev = EvSecretsGet namespace name sec err.
Proof.
  destruct (getGandiClient_trace c cfgJSON namespace w)
    as [[-> _] | (name & sec & err & ->)]; simpl; [done|].
  intros [<- | []]. eauto.
Qed.

Lemma client_trace_quiet c cfgJSON namespace w :
  mutations (trace_of (getGandiClient c cfgJSON namespace w)) = []
  /\ reads (trace_of (getGandiClient c cfgJSON namespace w)) = [].
Proof.
  destruct (getGandiClient_trace c cfgJSON namespace w)
    as [[-> _] | (name & sec & err & ->)]; done.
Qed.

Lemma record_found_true rec :
  record_found rec = true
  <-> RrsetName rec <> EmptyString /\ RrsetValues rec <> [].
Proof.
  unfold record_found.
  rewrite andb_true_iff, negb_true_iff, String.eqb_neq, Nat.ltb_lt.
  destruct (RrsetValues rec); simpl; intuition (try lia; try done).
Qed.

Lemma record_found_false rec :
  record_found rec = false
  <-> RrsetName rec = EmptyString \/ RrsetValues rec = [].
Proof.
  unfold record_found.
  rewrite andb_false_iff, negb_false_iff, String.eqb_eq, Nat.ltb_ge.
  destruct (RrsetValues rec); simpl; intuition (try lia; try done).
Qed.

(** ** Absent configuration *)

(** C5.  With a nil configuration payload, [Present] and [CleanUp] return
    the error "no configuration provided", whatever the state of the solver
    (also with a nil [client]): they do not panic, and they call neither the
    secret store nor the provider. *)
Theorem absent_config_is_reported c ch w :
  Config ch = None ->
  Present c ch w
  = (Returned (Some ("unable to get Gandi client: "
                     ++ "no configuration provided: " ++ fmt_v_nil_JSON)),
     w, [])
  /\ CleanUp c ch w
     = (Returned (Some ("unable to get Gandi client: "
                        ++ "no configuration provided: " ++ fmt_v_nil_JSON)),
        w, []).
Proof.
  intros Hnil. unfold Present, CleanUp, getGandiClient.
  rewrite Hnil. split; reflexivity.
Qed.

(** ** The missing key of a secret *)

(** C7.  When the secret is found and its data lack the configured key,
    [getGandiClient] fails with the message "key ... not found in secret",
    which holds the key as [%q] prints it; every failure of the call to the
    secret store gives a message that starts with "unable to get secret",
    which that message does not, so the two are never the same. *)
Theorem missing_secret_key_is_distinct c (j : JSON) namespace w cs cfg sec w1 :
  client c = Some cs ->
  json_Unmarshal (Raw j) gandiDNSProviderConfig_zero = (cfg, None) ->
  Secrets_Get cs namespace (Name (LocalObjectRef (PATSecretRef cfg))) w
    = ((sec, None), w1) ->
  Data sec !! Key_ (PATSecretRef cfg) = None ->
  exists msg,
    outcome_of (getGandiClient c (Some j) namespace w) = Returned (inr msg)
    /\ msg = "key " ++ fmt_q (Key_ (PATSecretRef cfg))
             ++ " not found in secret " ++ dquote
             ++ Name (LocalObjectRef (PATSecretRef cfg))
             ++ "/" ++ namespace ++ dquote
    /\ strings.Contains msg (fmt_q (Key_ (PATSecretRef cfg))) = true
    /\ strings.HasPrefix msg "unable to get secret" = false
    /\ forall c' cfgJSON' namespace' w' name' sec' err' msg',
         In (EvSecretsGet namespace' name' sec' (Some err'))
            (trace_of (getGandiClient c' cfgJSON' namespace' w')) ->
         outcome_of (getGandiClient c' cfgJSON' namespace' w')
           = Returned (inr msg') ->
         strings.HasPrefix msg' "unable to get secret" = true
         /\ msg' <> msg.
Proof.
  intros Hcs Hcfg Hsec Hkey. eexists. split; [|split; [reflexivity|]].
  - unfold getGandiClient. rewrite Hcfg, Hcs.
    unfold mbind, M_bind, call_Secrets_Get. rewrite Hsec, Hkey. reflexivity.
  - split; [apply (Contains_app "key ")|]. split; [reflexivity|].
    intros c' cfgJSON' namespace' w' name' sec' err' msg' Hin Hout.
    unfold getGandiClient, trace_of, outcome_of in Hin, Hout.
    destruct cfgJSON' as [j'|]; [|by destruct Hin].
    destruct (json_Unmarshal (Raw j') _) as [cfg' [e|]]; [by destruct Hin|].
    destruct (client c') as [cs'|]; [|by destruct Hin].
    unfold mbind, M_bind, call_Secrets_Get in Hin, Hout.
    destruct (Secrets_Get cs' _ _ _) as [[sec'' [e|]] w''];
      simpl in Hin, Hout.
    + injection Hout as <-. split; [reflexivity | discriminate].
    + destruct (Data sec'' !! _); simpl in Hin; by destruct Hin as [[=] | []].
Qed.

(** ** The calls of [Present] and [CleanUp] *)

(** Splits a goal about [Present c ch w] (or [CleanUp c ch w]) into the
    paths of the run, with what is known of the trace of [getGandiClient]. *)
Ltac along_runs lem c ch w :=
  let Hsecrets := fresh "Hsecrets" in
  let Hquiet := fresh "Hquiet" in
  let Hclient := fresh "Hclient" in
  pose proof (client_trace_secrets c (Config ch) (ResourceNamespace ch) w)
    as Hsecrets;
  pose proof (client_trace_quiet c (Config ch) (ResourceNamespace ch) w)
    as Hquiet;
  destruct (lem c ch w);
  match goal with
  | H : getGandiClient c (Config ch) (ResourceNamespace ch) w = _ |- _ =>
      rename H into Hclient; rewrite Hclient in Hsecrets, Hquiet
  end;
  unfold trace_of, outcome_of, world_of in *; simpl in *;
  rewrite ?Hclient; simpl.

(** An event of a trace that ends with the calls to the provider is one of
    these calls, since the trace of [getGandiClient] has none. *)
Ltac find_event Hin Hsecrets :=
  rewrite ?in_app_iff in Hin; simpl in Hin;
  repeat match type of Hin with
    | _ \/ _ => destruct Hin as [Hin | Hin]
    end;
  try (apply Hsecrets in Hin; destruct Hin as (? & ? & ? & Hin));
  try done.

(** C4.  Every update call that [Present] makes carries the TTL
    [GandiMinTtl], which is 300, and [CleanUp] makes no update call: an
    update with a TTL below 300 is never issued. *)
Theorem upsert_ttl_floor c ch w cl domain name rtype ttl values resp err :
  In (EvUpdateRecord cl domain name rtype ttl values resp err)
     (trace_of (Present c ch w))
  \/ In (EvUpdateRecord cl domain name rtype ttl values resp err)
        (trace_of (CleanUp c ch w)) ->
  ttl = GandiMinTtl /\ 300 <= ttl.
Proof.
  intros [Hin | Hin]; revert Hin.
  - along_runs Present_runs c ch w; intros Hin; find_event Hin Hsecrets.
    all: by injection Hin as <- <- <- <- <- <- <- <-.
  - along_runs CleanUp_runs c ch w; intros Hin; find_event Hin Hsecrets.
Qed.


(** The mutations of a run are fixed by the request and the record read. *)
Lemma Present_mutations c ch w :
  match reads (trace_of (Present c ch w)) with
  | [] => mutations (trace_of (Present c ch w)) = []
  | _ =>
      mutations (trace_of (Present c ch w))
      = [Upsert (getDomainAndChallengeFQDN ch).2 (getDomainAndChallengeFQDN ch).1
           "TXT" GandiMinTtl [Key ch]]
  end.
Proof.
  along_runs Present_runs c ch w; destruct Hquiet as [Hm Hr];
    unfold reads, mutations in *; rewrite ?omap_app, ?Hm, ?Hr; done.
Qed.

Lemma CleanUp_mutations c ch w :
  match reads (trace_of (CleanUp c ch w)) with
  | [] => mutations (trace_of (CleanUp c ch w)) = []
  | rec :: _ =>
      mutations (trace_of (CleanUp c ch w))
      = if record_found rec
        then [Delete (getDomainAndChallengeFQDN ch).2
                (getDomainAndChallengeFQDN ch).1 "TXT"]
        else []
  end.
Proof.
  along_runs CleanUp_runs c ch w; destruct Hquiet as [Hm Hr];
    unfold reads, mutations in *; rewrite ?omap_app, ?Hm, ?Hr; simpl;
    try done.
  all: match goal with H : record_found _ = _ |- _ => by rewrite H end.
Qed.

(** ** Where the upsert leaves the records *)

(** C10.  The values of every update call of [Present] are the one-element
    list of the challenge key, whatever record was read before; and with a
    provider whose update replaces, a [Present] that succeeds leaves at the
    challenge name the single record of that one value, so the values that
    were there before are gone. *)
Theorem upsert_sends_only_the_key c ch w :
  (forall cl domain name rtype ttl values resp err,
      In (EvUpdateRecord cl domain name rtype ttl values resp err)
         (trace_of (Present c ch w)) ->
      values = [Key ch])
  /\ (forall records_at,
        upsert_replaces records_at ->
        outcome_of (Present c ch w) = Returned None ->
        records_at (world_of (Present c ch w))
          (getDomainAndChallengeFQDN ch).2 (getDomainAndChallengeFQDN ch).1
          "TXT"
        = [ {| RrsetType := "TXT"; RrsetTTL := GandiMinTtl;
               RrsetName := (getDomainAndChallengeFQDN ch).1;
               RrsetValues := [Key ch] |} ]).
Proof.
  split.
  - intros cl domain name rtype ttl values resp err.
    along_runs Present_runs c ch w; intros Hin; find_event Hin Hsecrets.
    all: by injection Hin as <- <- <- <- <- <- <- <-.
  - intros records_at Hlaw.
    along_runs Present_runs c ch w; intros Hout; try done.
    by eapply Hlaw.
Qed.

(** ** Idempotence *)

(** A [Present] whose credentials resolve and whose calls are all accepted
    succeeds, asks for the one upsert, and leaves the one record. *)
Lemma Present_accepted c ch w g :
  outcome_of (getGandiClient c (Config ch) (ResourceNamespace ch) w)
    = Returned (inl g) ->
  forallb accepted (trace_of (Present c ch w)) = true ->
  outcome_of (Present c ch w) = Returned None
  /\ mutations (trace_of (Present c ch w))
     = [Upsert (getDomainAndChallengeFQDN ch).2 (getDomainAndChallengeFQDN ch).1
          "TXT" GandiMinTtl [Key ch]]
  /\ forall records_at,
       upsert_replaces records_at ->
       records_at (world_of (Present c ch w))
         (getDomainAndChallengeFQDN ch).2 (getDomainAndChallengeFQDN ch).1 "TXT"
       = [ {| RrsetType := "TXT"; RrsetTTL := GandiMinTtl;
              RrsetName := (getDomainAndChallengeFQDN ch).1;
              RrsetValues := [Key ch] |} ].
Proof.
  pose proof (Present_mutations c ch w) as Hmut. revert Hmut.
  along_runs Present_runs c ch w; destruct Hquiet as [Hm Hr];
    unfold reads in *; rewrite ?omap_app, ?Hr; simpl;
    intros Hmut Hout Hacc; try done;
    rewrite forallb_app in Hacc; apply andb_true_iff in Hacc as [_ Hacc];
    simpl in Hacc; try done.
  - rewrite andb_true_r in Hacc. apply Z.eqb_eq in Hacc. done.
  - repeat split; [done|]. intros records_at Hlaw. by eapply Hlaw.
Qed.

(** C1.  With a provider whose update replaces: when the credentials
    resolve and every call of the two runs is accepted, two calls of
    [Present] in succession with the same request both succeed, the second
    asks for the same single upsert as the first, and the records held at
    the challenge name, whatever they were at the start, are in the end
    exactly one TXT record whose values are the challenge key. *)
Theorem Present_idempotent records_at c ch w g1 g2 :
  upsert_replaces records_at ->
  outcome_of (getGandiClient c (Config ch) (ResourceNamespace ch) w)
    = Returned (inl g1) ->
  outcome_of (getGandiClient c (Config ch) (ResourceNamespace ch)
                (world_of (Present c ch w)))
    = Returned (inl g2) ->
  forallb accepted
    (trace_of (Present c ch w)
     ++ trace_of (Present c ch (world_of (Present c ch w))))%list = true ->
  outcome_of (Present c ch w) = Returned None
  /\ outcome_of (Present c ch (world_of (Present c ch w))) = Returned None
  /\ mutations (trace_of (Present c ch (world_of (Present c ch w))))
     = mutations (trace_of (Present c ch w))
  /\ length (mutations (trace_of (Present c ch (world_of (Present c ch w)))))
     = 1%nat
  /\ records_at (world_of (Present c ch (world_of (Present c ch w))))
       (getDomainAndChallengeFQDN ch).2 (getDomainAndChallengeFQDN ch).1 "TXT"
     = [ {| RrsetType := "TXT"; RrsetTTL := GandiMinTtl;
            RrsetName := (getDomainAndChallengeFQDN ch).1;
            RrsetValues := [Key ch] |} ].
Proof.
  intros Hlaw Hg1 Hg2 Hacc.
  rewrite forallb_app in Hacc. apply andb_true_iff in Hacc as [Hacc1 Hacc2].
  destruct (Present_accepted c ch w g1 Hg1 Hacc1) as (Ho1 & Hm1 & _).
  destruct (Present_accepted c ch _ g2 Hg2 Hacc2) as (Ho2 & Hm2 & Hrec).
  rewrite Hm1, Hm2. repeat split; try done. by apply Hrec.
Qed.

(** ** [CleanUp] *)

(** C3.  After the credentials resolve and the read is answered with the
    record [rec]: if the name of [rec] is empty or it has no value,
    [CleanUp] returns success and its trace, which ends with the read, has
    no mutation; if [rec] has a name and a value, whatever its values are,
    [CleanUp] calls the deletion of the TXT records at the challenge name
    and returns what the deletion returned. *)
Theorem CleanUp_contract c ch w g w1 t rec w2 :
  getGandiClient c (Config ch) (ResourceNamespace ch) w
    = (Returned (inl g), w1, t) ->
  livedns_GetDomainRecordByNameAndType g (getDomainAndChallengeFQDN ch).2
    (getDomainAndChallengeFQDN ch).1 "TXT" w1 = ((rec, None), w2) ->
  (RrsetName rec = EmptyString \/ RrsetValues rec = [] ->
   CleanUp c ch w
   = (Returned None, w2,
      (t ++ [EvGetRecord g (getDomainAndChallengeFQDN ch).2
               (getDomainAndChallengeFQDN ch).1 "TXT" rec None])%list)
   /\ mutations (trace_of (CleanUp c ch w)) = [])
  /\ (RrsetName rec <> EmptyString -> RrsetValues rec <> [] ->
      exists err w3,
        livedns_DeleteDomainRecord g (getDomainAndChallengeFQDN ch).2
          (getDomainAndChallengeFQDN ch).1 "TXT" w2 = (err, w3)
        /\ CleanUp c ch w
           = (Returned (append "unable to remove TXT record: " <$> err), w3,
              (t ++ [EvGetRecord g (getDomainAndChallengeFQDN ch).2
                       (getDomainAndChallengeFQDN ch).1 "TXT" rec None;
                     EvDeleteRecord g (getDomainAndChallengeFQDN ch).2
                       (getDomainAndChallengeFQDN ch).1 "TXT" err])%list)
        /\ mutations (trace_of (CleanUp c ch w))
           = [Delete (getDomainAndChallengeFQDN ch).2
                (getDomainAndChallengeFQDN ch).1 "TXT"]).
Proof.
  intros Hg Hread.
  pose proof (client_trace_quiet c (Config ch) (ResourceNamespace ch) w)
    as [Hquiet _].
  rewrite Hg in Hquiet. unfold trace_of in Hquiet; simpl in Hquiet.
  destruct (CleanUp_runs c ch w) as [ ? ? Hc | ? ? ? Hc | ? ? ? ? ? ? Hc Hr
                                    | ? ? ? ? ? Hc Hr Hf
                                    | ? ? ? ? ? err w3 Hc Hr Hf Hd ];
    rewrite Hg in Hc; try done; injection Hc as <- <- <-;
    rewrite Hread in Hr; try done; injection Hr as <- <-.
  - split.
    + intros _. split; [done|].
      unfold trace_of, mutations in *; simpl. by rewrite omap_app, Hquiet.
    + intros Hn Hv. apply record_found_false in Hf. tauto.
  - split.
    + intros Hempty%record_found_false. congruence.
    + intros _ _. exists err, w3. repeat split; [done|].
      unfold trace_of, mutations in *; simpl. by rewrite omap_app, Hquiet.
Qed.

(** ** Reads and mutations *)

(** A trace without mutations has none to precede. *)
Lemma no_mutation_precedes (t : list Event) :
  mutations t = [] -> read_precedes_mutations t.
Proof.
  intros Hnone pre post ev m -> Hm.
  unfold mutations in Hnone. rewrite omap_app in Hnone. simpl in Hnone.
  rewrite Hm in Hnone. by destruct (omap mutation_of pre).
Qed.

(** After calls that mutate nothing and a read of a key, mutations of that
    key come after the read. *)
Lemma read_then_mutations (t tail : list Event) g domain name rtype rec :
  mutations t = [] ->
  Forall (fun ev => forall m, mutation_of ev = Some m ->
                           mutation_key m = (domain, name, rtype)) tail ->
  read_precedes_mutations
    (t ++ EvGetRecord g domain name rtype rec None :: tail).
Proof.
  intros Hnone Hkeys pre post ev m Heq Hm.
  apply app_eq_inv in Heq as [(k & -> & Heq) | (k & -> & Heq)].
  - destruct k as [|e k]; simplify_eq/=.
    unfold mutations in Hnone. rewrite omap_app in Hnone. simpl in Hnone.
    rewrite Hm in Hnone. by destruct (omap mutation_of pre).
  - destruct k as [|r k]; simplify_eq/=.
    apply Forall_app in Hkeys as [_ [Hkey _]%Forall_cons].
    rewrite (Hkey m Hm); simpl.
    exists g, rec. apply in_elt.
Qed.

(** C8.  In every run of [Present] and of [CleanUp], each mutation comes
    after a read, answered without an error, of the key it is about, which
    is the (domain, name, TXT) of the request; no mutation is made when no
    read was answered; and the
    mutations of a run depend on the request and on the record read only:
    two runs on the same request, from any two states of the solver and of
    the world, in which the read returned the same record make the same
    mutations. *)
Theorem read_before_mutate c ch w :
  (read_precedes_mutations (trace_of (Present c ch w))
   /\ read_precedes_mutations (trace_of (CleanUp c ch w)))
  /\ (forall m,
        In m (mutations (trace_of (Present c ch w)))
        \/ In m (mutations (trace_of (CleanUp c ch w))) ->
        mutation_key m
        = ((getDomainAndChallengeFQDN ch).2, (getDomainAndChallengeFQDN ch).1,
           "TXT"))
  /\ (reads (trace_of (Present c ch w)) = [] ->
      mutations (trace_of (Present c ch w)) = [])
  /\ (reads (trace_of (CleanUp c ch w)) = [] ->
      mutations (trace_of (CleanUp c ch w)) = [])
  /\ (forall c' w' rec,
        reads (trace_of (Present c ch w)) = [rec] ->
        reads (trace_of (Present c' ch w')) = [rec] ->
        mutations (trace_of (Present c ch w))
        = mutations (trace_of (Present c' ch w')))
  /\ (forall c' w' rec,
        reads (trace_of (CleanUp c ch w)) = [rec] ->
        reads (trace_of (CleanUp c' ch w')) = [rec] ->
        mutations (trace_of (CleanUp c ch w))
        = mutations (trace_of (CleanUp c' ch w'))).
Proof.
  split; [split|].
  - along_runs Present_runs c ch w; destruct Hquiet as [Hm _];
      try (by apply no_mutation_precedes);
      try (apply read_then_mutations; [done|]; repeat constructor;
           by intros ? [= <-]).
    apply no_mutation_precedes. unfold mutations in *.
    by rewrite omap_app, Hm.
  - along_runs CleanUp_runs c ch w; destruct Hquiet as [Hm _];
      try (by apply no_mutation_precedes);
      try (apply read_then_mutations; [done|]; repeat constructor;
           by intros ? [= <-]).
    apply no_mutation_precedes. unfold mutations in *.
    by rewrite omap_app, Hm.
  - pose proof (Present_mutations c ch w) as HP.
    pose proof (CleanUp_mutations c ch w) as HC.
    repeat split.
    + intros m [Hin | Hin].
      * destruct (reads (trace_of (Present c ch w))); rewrite HP in Hin;
          [done|]. by destruct Hin as [<- | []].
      * destruct (reads (trace_of (CleanUp c ch w))) as [|rec ?];
          rewrite HC in Hin; [done|].
        destruct (record_found rec); [|done]. by destruct Hin as [<- | []].
    + intros Hr. by rewrite Hr in HP.
    + intros Hr. by rewrite Hr in HC.
    + intros c' w' rec Hr Hr'.
      pose proof (Present_mutations c' ch w') as HP'.
      rewrite Hr in HP. rewrite Hr' in HP'. congruence.
    + intros c' w' rec Hr Hr'.
      pose proof (CleanUp_mutations c' ch w') as HC'.
      rewrite Hr in HC. rewrite Hr' in HC'. congruence.
Qed.

(** C9.  The write of [Present] is the same in both branches: a run in which
    the record read is found and a run in which it is not, on the same
    request, ask for the same single upsert, of the challenge key with the
    TTL [GandiMinTtl] at the TXT record of the challenge name; the update
    events of the two runs have the same zone, name, type, TTL and values. *)
Theorem present_branches_issue_same_call c ch w c' w' rec rec' :
  reads (trace_of (Present c ch w)) = [rec] ->
  record_found rec = true ->
  reads (trace_of (Present c' ch w')) = [rec'] ->
  record_found rec' = false ->
  mutations (trace_of (Present c ch w))
  = [Upsert (getDomainAndChallengeFQDN ch).2 (getDomainAndChallengeFQDN ch).1
       "TXT" GandiMinTtl [Key ch]]
  /\ mutations (trace_of (Present c' ch w'))
     = mutations (trace_of (Present c ch w)).
Proof.
  intros Hr _ Hr' _.
  pose proof (Present_mutations c ch w) as HP.
  pose proof (Present_mutations c' ch w') as HP'.
  rewrite Hr in HP. rewrite Hr' in HP'. by rewrite HP, HP'.
Qed.

(** ** The runs of [getGandiClient] *)

Lemma getGandiClient_runs c cfgJSON namespace w :
  client_run c cfgJSON namespace w (getGandiClient c cfgJSON namespace w).
Proof.
  unfold getGandiClient.
  destruct cfgJSON as [j|]; [|by apply client_no_config].
  destruct (json_Unmarshal (Raw j) gandiDNSProviderConfig_zero)
    as [cfg [e|]] eqn:Hcfg; [by eapply client_bad_config|].
  destruct (client c) as [cs|] eqn:Hcs; [|by eapply client_nil].
  step_call; simpl.
  - by eapply client_secret_failed.
  - destruct (Data _ !! _) eqn:Hkey; simpl.
    + by eapply client_built.
    + by eapply client_key_missing.
Qed.

(** X1.  A failure of [getGandiClient] ends both operations: the error is
    returned under "unable to get Gandi client", and the run stops where
    [getGandiClient] stopped, without a call to the provider. *)
Theorem credential_failure_stops_the_run c ch w err :
  outcome_of (getGandiClient c (Config ch) (ResourceNamespace ch) w)
    = Returned (inr err) ->
  (Present c ch w
   = (Returned (Some ("unable to get Gandi client: " ++ err)),
      world_of (getGandiClient c (Config ch) (ResourceNamespace ch) w),
      trace_of (getGandiClient c (Config ch) (ResourceNamespace ch) w))
   /\ CleanUp c ch w = Present c ch w)
  /\ omap event_client (trace_of (Present c ch w)) = [].
Proof.
  intros Hfail.
  assert (Present c ch w
          = (Returned (Some ("unable to get Gandi client: " ++ err)),
             world_of (getGandiClient c (Config ch) (ResourceNamespace ch) w),
             trace_of (getGandiClient c (Config ch) (ResourceNamespace ch) w))
          /\ CleanUp c ch w = Present c ch w) as [HP HC].
  { unfold Present, CleanUp, mbind, M_bind.
    destruct (getGandiClient c (Config ch) (ResourceNamespace ch) w)
      as [[o w1] t]; unfold outcome_of in Hfail; simpl in Hfail; subst o.
    unfold trace_of, world_of; simpl. by rewrite app_nil_r. }
  split; [done|]. rewrite HP. unfold trace_of at 1; simpl.
  destruct (getGandiClient_trace c (Config ch) (ResourceNamespace ch) w)
    as [[-> _] | (name & sec & e & ->)]; done.
Qed.

(** X2.  A configuration that does not decode is reported as such by both
    operations, before the client of the secret store is used: no call is
    made and, with a nil [client] too, nothing panics. *)
Theorem malformed_config_is_reported c ch w j cfg err :
  Config ch = Some j ->
  json_Unmarshal (Raw j) gandiDNSProviderConfig_zero = (cfg, Some err) ->
  Present c ch w
  = (Returned (Some ("unable to get Gandi client: "
                     ++ "error decoding solver config: " ++ err)), w, [])
  /\ CleanUp c ch w
     = (Returned (Some ("unable to get Gandi client: "
                        ++ "error decoding solver config: " ++ err)), w, []).
Proof.
  intros Hj Hcfg. unfold Present, CleanUp, getGandiClient.
  rewrite Hj, Hcfg. split; reflexivity.
Qed.

(** X3.  When the call to the secret store fails, both operations return its
    error under "unable to get secret" with the name of the secret, and the
    lookup is the only call of the run. *)
Theorem secret_lookup_failure_is_reported c ch w j cfg cs sec err w1 :
  Config ch = Some j ->
  json_Unmarshal (Raw j) gandiDNSProviderConfig_zero = (cfg, None) ->
  client c = Some cs ->
  Secrets_Get cs (ResourceNamespace ch)
    (Name (LocalObjectRef (PATSecretRef cfg))) w = ((sec, Some err), w1) ->
  Present c ch w
  = (Returned (Some ("unable to get Gandi client: "
                     ++ "unable to get secret `"
                     ++ Name (LocalObjectRef (PATSecretRef cfg))
                     ++ "`; " ++ err)),
     w1,
     [EvSecretsGet (ResourceNamespace ch)
        (Name (LocalObjectRef (PATSecretRef cfg))) sec (Some err)])
  /\ CleanUp c ch w = Present c ch w.
Proof.
  intros Hj Hcfg Hcs Hsec.
  unfold Present, CleanUp, getGandiClient, mbind, M_bind, call_Secrets_Get.
  rewrite Hj, Hcfg, Hcs, Hsec. split; reflexivity.
Qed.

(** What a client returned by [getGandiClient] was built from. *)
Lemma client_built_inv c cfgJSON namespace w g :
  outcome_of (getGandiClient c cfgJSON namespace w) = Returned (inl g) ->
  exists j cfg sec secBytes,
    cfgJSON = Some j
    /\ json_Unmarshal (Raw j) gandiDNSProviderConfig_zero = (cfg, None)
    /\ trace_of (getGandiClient c cfgJSON namespace w)
       = [EvSecretsGet namespace (Name (LocalObjectRef (PATSecretRef cfg)))
            sec None]
    /\ Data sec !! Key_ (PATSecretRef cfg) = Some secBytes
    /\ list_byte_of_string (PersonalAccessToken g) = secBytes.
Proof.
  destruct (getGandiClient_runs c cfgJSON namespace w);
    unfold outcome_of, trace_of; simpl; intros [= <-].
  exists j, cfg, sec, secBytes. repeat split; try done; simpl.
  apply list_byte_of_string_of_list_byte.
Qed.

(** X4.  When [getGandiClient] returns a client, the configuration was decoded,
    the secret it names was looked up once, in the namespace given, and
    answered without an error, and the token of the client is, byte for
    byte, what the secret holds under the configured key. *)
Theorem client_token_is_secret_bytes c cfgJSON namespace w g :
  outcome_of (getGandiClient c cfgJSON namespace w) = Returned (inl g) ->
  exists j cfg sec secBytes,
    cfgJSON = Some j
    /\ json_Unmarshal (Raw j) gandiDNSProviderConfig_zero = (cfg, None)
    /\ trace_of (getGandiClient c cfgJSON namespace w)
       = [EvSecretsGet namespace (Name (LocalObjectRef (PATSecretRef cfg)))
            sec None]
    /\ Data sec !! Key_ (PATSecretRef cfg) = Some secBytes
    /\ list_byte_of_string (PersonalAccessToken g) = secBytes.
Proof.
  intros Hbuilt.
  destruct (getGandiClient_runs c cfgJSON namespace w) as
    [ | | | | | j cfg cs sec w1 secBytes Hj Hcfg Hcs Hget Hkey ];
    unfold outcome_of, trace_of in *; simpl in *; try discriminate Hbuilt.
  injection Hbuilt as <-.
  exists j, cfg, sec, secBytes. repeat split; try assumption; simpl.
  apply list_byte_of_string_of_list_byte.
Qed.

(** X5.  On a solver whose [client] is nil, an operation whose configuration
    decodes panics, before any call is made. *)
Theorem uninitialized_solver_panics c ch w j cfg :
  client c = None ->
  Config ch = Some j ->
  json_Unmarshal (Raw j) gandiDNSProviderConfig_zero = (cfg, None) ->
  Present c ch w = (Panicked, w, [])
  /\ CleanUp c ch w = (Panicked, w, []).
Proof.
  intros Hnil Hj Hcfg. unfold Present, CleanUp, getGandiClient.
  rewrite Hj, Hcfg, Hnil. split; reflexivity.
Qed.

(** X6.  A solver with a client never panics; [Initialize] gives such a solver
    when it succeeds with a client that is not nil, and when it fails it
    leaves the solver as it was and says "unable to get k8s client". *)
Theorem initialized_solver_never_panics {RestConfig : Type}
    (kubernetes_NewForConfig : RestConfig -> option Clientset * option error)
    c0 (kubeClientConfig : RestConfig) :
  (forall c,
      Initialize kubernetes_NewForConfig c0 kubeClientConfig = (c, None) ->
      (kubernetes_NewForConfig kubeClientConfig).1 <> None ->
      forall ch w,
        outcome_of (Present c ch w) <> Panicked
        /\ outcome_of (CleanUp c ch w) <> Panicked)
  /\ (forall c err,
        Initialize kubernetes_NewForConfig c0 kubeClientConfig = (c, Some err) ->
        c = c0
        /\ exists cause,
             (kubernetes_NewForConfig kubeClientConfig).2 = Some cause
             /\ err = "unable to get k8s client: " ++ cause).
Proof.
  unfold Initialize.
  destruct (kubernetes_NewForConfig kubeClientConfig) as [cl [e|]]; simpl;
    split; try done.
  - intros c err [= <- <-]. split; [done|]. by exists e.
  - intros c [= <-] Hcl ch w.
    assert (forall cfgJSON namespace,
               outcome_of (getGandiClient {| client := cl |} cfgJSON namespace w)
               <> Panicked) as Hsafe.
    { intros cfgJSON namespace.
      destruct (getGandiClient_runs {| client := cl |} cfgJSON namespace w);
        done. }
    specialize (Hsafe (Config ch) (ResourceNamespace ch)).
    split.
    + destruct (Present_runs {| client := cl |} ch w); try done.
      unfold outcome_of in Hsafe. by rewrite H in Hsafe.
    + destruct (CleanUp_runs {| client := cl |} ch w); try done.
      unfold outcome_of in Hsafe. by rewrite H in Hsafe.
Qed.

(** ** Failures of the provider *)

(** X7.  A read that fails ends the run: the operation returns the error of the
    read under its own heading, and no mutation is asked for. *)
Theorem failed_read_stops_the_run c ch w cl domain name rtype rec err :
  (In (EvGetRecord cl domain name rtype rec (Some err))
      (trace_of (Present c ch w)) ->
   outcome_of (Present c ch w)
   = Returned (Some ("present: pre: unable to check TXT record: " ++ err))
   /\ mutations (trace_of (Present c ch w)) = [])
  /\ (In (EvGetRecord cl domain name rtype rec (Some err))
         (trace_of (CleanUp c ch w)) ->
      outcome_of (CleanUp c ch w)
      = Returned (Some ("cleanup: pre: unable to check TXT record: " ++ err))
      /\ mutations (trace_of (CleanUp c ch w)) = []).
Proof.
  split.
  - along_runs Present_runs c ch w; destruct Hquiet as [Hm _]; intros Hin;
      find_event Hin Hsecrets.
    injection Hin as <- <- <- <- <- <-. split; [done|].
    unfold mutations in *. by rewrite omap_app, Hm.
  - along_runs CleanUp_runs c ch w; destruct Hquiet as [Hm _]; intros Hin;
      find_event Hin Hsecrets.
    injection Hin as <- <- <- <- <- <-. split; [done|].
    unfold mutations in *. by rewrite omap_app, Hm.
Qed.

(** X8.  An update that returns an error is reported with that error, whatever
    the code of the response that came with it (200 too): "unable to change
    TXT record" when the record read was found, "unable to create TXT
    record" when it was not. *)
Theorem failed_upsert_is_reported
    c ch w cl domain name rtype ttl values resp err :
  In (EvUpdateRecord cl domain name rtype ttl values resp (Some err))
     (trace_of (Present c ch w)) ->
  exists rec,
    reads (trace_of (Present c ch w)) = [rec]
    /\ outcome_of (Present c ch w)
       = Returned (Some (if record_found rec
                         then "unable to change TXT record: " ++ err
                         else "unable to create TXT record: " ++ err)).
Proof.
  along_runs Present_runs c ch w; destruct Hquiet as [_ Hr]; intros Hin;
    find_event Hin Hsecrets.
  injection Hin as <- <- <- <- <- <- <- <-. exists rec. split.
  - unfold reads in *. by rewrite omap_app, Hr.
  - by destruct (record_found rec).
Qed.

(** ** What success means *)

(** X9.  [Present] returns nil only after the three calls of a full run: the
    lookup of the secret, the read and the update of the TXT record of the
    challenge name with the challenge key, each answered without an error,
    and the update with the code 200. *)
Theorem Present_success_means_upsert_accepted c ch w :
  outcome_of (Present c ch w) = Returned None ->
  exists name sec g rec resp,
    trace_of (Present c ch w)
    = [EvSecretsGet (ResourceNamespace ch) name sec None;
       EvGetRecord g (getDomainAndChallengeFQDN ch).2
         (getDomainAndChallengeFQDN ch).1 "TXT" rec None;
       EvUpdateRecord g (getDomainAndChallengeFQDN ch).2
         (getDomainAndChallengeFQDN ch).1 "TXT" GandiMinTtl [Key ch] resp None]
    /\ Code resp = 200.
Proof.
  pose proof (client_built_inv c (Config ch)
                (ResourceNamespace ch) w) as Hbuilt.
  revert Hbuilt.
  along_runs Present_runs c ch w; intros Hbuilt Hout; try done.
  destruct (Hbuilt g eq_refl) as (j & cfg & sec & secBytes & _ & _ & -> & _).
  do 5 eexists. split; [reflexivity | done].
Qed.

(** X10.  [CleanUp] returns nil only after the lookup of the secret and the read
    were answered without an error, and then either the record read was not
    found and nothing else was called, or it was found and the deletion of
    the TXT records of the challenge name returned no error. *)
Theorem CleanUp_success_means_absent_or_deleted c ch w :
  outcome_of (CleanUp c ch w) = Returned None ->
  exists name sec g rec,
    (record_found rec = false
     /\ trace_of (CleanUp c ch w)
        = [EvSecretsGet (ResourceNamespace ch) name sec None;
           EvGetRecord g (getDomainAndChallengeFQDN ch).2
             (getDomainAndChallengeFQDN ch).1 "TXT" rec None])
    \/ (record_found rec = true
        /\ trace_of (CleanUp c ch w)
           = [EvSecretsGet (ResourceNamespace ch) name sec None;
              EvGetRecord g (getDomainAndChallengeFQDN ch).2
                (getDomainAndChallengeFQDN ch).1 "TXT" rec None;
              EvDeleteRecord g (getDomainAndChallengeFQDN ch).2
                (getDomainAndChallengeFQDN ch).1 "TXT" None]).
Proof.
  pose proof (client_built_inv c (Config ch)
                (ResourceNamespace ch) w) as Hbuilt.
  revert Hbuilt.
  along_runs CleanUp_runs c ch w; intros Hbuilt Hout; try done;
    destruct (Hbuilt g eq_refl) as (j & cfg & sec & secBytes & _ & _ & -> & _).
  - do 4 eexists. left. split; [done | reflexivity].
  - destruct err; [done|]. do 4 eexists. right. split; [done | reflexivity].
Qed.

(** ** The calls of a run *)

(** X11.  A run makes three calls at most, one read and one mutation at most;
    [Present] never deletes; and what the two operations do before they
    mutate is the same: from the same state, their traces without the
    mutations are equal. *)
Theorem calls_are_bounded c ch w :
  (length (trace_of (Present c ch w)) <= 3
   /\ length (trace_of (CleanUp c ch w)) <= 3)%nat
  /\ (forall cl domain name rtype err,
        ~ In (EvDeleteRecord cl domain name rtype err)
             (trace_of (Present c ch w)))
  /\ filter (fun ev => mutation_of ev = None) (trace_of (Present c ch w))
     = filter (fun ev => mutation_of ev = None) (trace_of (CleanUp c ch w)).
Proof.
  pose proof (getGandiClient_trace c (Config ch) (ResourceNamespace ch) w)
    as Hlen.
  assert (length (trace_of (getGandiClient c (Config ch)
                              (ResourceNamespace ch) w)) <= 1)%nat as Hone.
  { destruct Hlen as [[-> _] | (? & ? & ? & ->)]; simpl; lia. }
  clear Hlen. split; [split|split].
  - revert Hone. along_runs Present_runs c ch w; intros Hone;
      rewrite ?List.length_app; simpl; lia.
  - revert Hone. along_runs CleanUp_runs c ch w; intros Hone;
      rewrite ?List.length_app; simpl; lia.
  - intros cl domain name rtype err.
    along_runs Present_runs c ch w; intros Hin; find_event Hin Hsecrets.
  - clear Hone.
    destruct (Present_runs c ch w); destruct (CleanUp_runs c ch w);
      unfold trace_of; simpl;
      repeat match goal with
        | H : ?call = _, H' : ?call = _ |- _ =>
            rewrite H in H'; simplify_eq
        end;
      rewrite ?filter_app; simpl; done.
Qed.

(** X12.  Every call to the provider is made with a token that was read from the
    secret store in the same run: the trace starts with a lookup, answered
    without an error, in the namespace of the request, and the token of the
    client is the bytes that the secret returned holds under some key. *)
Theorem provider_calls_use_the_token_just_read c ch w ev cl :
  In ev (trace_of (Present c ch w)) \/ In ev (trace_of (CleanUp c ch w)) ->
  event_client ev = Some cl ->
  exists name sec key,
    (head (trace_of (Present c ch w))
     = Some (EvSecretsGet (ResourceNamespace ch) name sec None)
     /\ head (trace_of (CleanUp c ch w))
        = Some (EvSecretsGet (ResourceNamespace ch) name sec None))
    /\ Data sec !! key = Some (list_byte_of_string (PersonalAccessToken cl)).
Proof.
  pose proof (client_built_inv c (Config ch)
                (ResourceNamespace ch) w) as Hbuilt.
  intros Hin Hcl.
  assert (exists w1 t,
             getGandiClient c (Config ch) (ResourceNamespace ch) w
             = (Returned (inl cl), w1, t)) as (w1 & t & Hg).
  { destruct Hin as [Hin | Hin]; revert Hin.
    - along_runs Present_runs c ch w; intros Hin; find_event Hin Hsecrets;
        subst; simpl in Hcl; simplify_eq; eauto.
    - along_runs CleanUp_runs c ch w; intros Hin; find_event Hin Hsecrets;
        subst; simpl in Hcl; simplify_eq; eauto. }
  unfold outcome_of, trace_of in Hbuilt. rewrite Hg in Hbuilt.
  destruct (Hbuilt cl eq_refl)
    as (j & cfg & sec & secBytes & _ & _ & Ht & Hkey & <-).
  simpl in Ht. subst t.
  exists (Name (LocalObjectRef (PATSecretRef cfg))), sec,
    (Key_ (PATSecretRef cfg)).
  split; [|done].
  split.
  - destruct (Present_runs c ch w); unfold trace_of; simpl;
      rewrite Hg in *; by simplify_eq/=.
  - destruct (CleanUp_runs c ch w); unfold trace_of; simpl;
      rewrite Hg in *; by simplify_eq/=.
Qed.

(** ** What an error tells *)

Lemma client_trace_no_provider c cfgJSON namespace w :
  omap event_client (trace_of (getGandiClient c cfgJSON namespace w)) = [].
Proof.
  destruct (getGandiClient_trace c cfgJSON namespace w)
    as [[-> _] | (name & sec & err & ->)]; done.
Qed.

(** X13.  The heading of an error tells whether the provider was reached: an
    error of [Present] or [CleanUp] starts with "unable to get Gandi
    client: " exactly when the run made no call to the provider. *)
Theorem error_heading_tells_the_stage c ch w msg :
  (outcome_of (Present c ch w) = Returned (Some msg) ->
   strings.HasPrefix msg "unable to get Gandi client: " = true
   <-> omap event_client (trace_of (Present c ch w)) = [])
  /\ (outcome_of (CleanUp c ch w) = Returned (Some msg) ->
      strings.HasPrefix msg "unable to get Gandi client: " = true
      <-> omap event_client (trace_of (CleanUp c ch w)) = []).
Proof.
  pose proof (client_trace_no_provider c (Config ch) (ResourceNamespace ch) w)
    as Hnone.
  split; revert Hnone.
  - along_runs Present_runs c ch w; intros Hnone [= <-];
      rewrite ?omap_app, ?Hnone; simpl.
    + done.
    + done.
    + by destruct (record_found rec).
    + done.
  - along_runs CleanUp_runs c ch w; intros Hnone Hout;
      rewrite ?omap_app, ?Hnone; simpl; simplify_eq.
    + done.
    + done.
    + destruct err; by simplify_eq/=.
Qed.

(** ** [Present], then [CleanUp] *)

Lemma client_keeps_records records_at c cfgJSON namespace w :
  secrets_keep_records records_at ->
  forall d n ty,
    records_at (world_of (getGandiClient c cfgJSON namespace w)) d n ty
    = records_at w d n ty.
Proof.
  intros Hkeep d n ty.
  destruct (getGandiClient_runs c cfgJSON namespace w);
    unfold world_of; simpl; try done; by eapply Hkeep.
Qed.

(** X14.  With a provider whose update replaces, whose deletion removes and
    whose read reports, and a secret store apart from the records: when the
    record name of the challenge is not empty, a [CleanUp] that succeeds
    after a [Present] that succeeded has asked for the deletion, and no
    record is left at the challenge name. *)
Theorem CleanUp_undoes_Present records_at c ch w :
  upsert_replaces records_at ->
  delete_removes records_at ->
  read_reports records_at ->
  secrets_keep_records records_at ->
  (getDomainAndChallengeFQDN ch).1 <> EmptyString ->
  outcome_of (Present c ch w) = Returned None ->
  outcome_of (CleanUp c ch (world_of (Present c ch w))) = Returned None ->
  mutations (trace_of (CleanUp c ch (world_of (Present c ch w))))
  = [Delete (getDomainAndChallengeFQDN ch).2 (getDomainAndChallengeFQDN ch).1
       "TXT"]
  /\ records_at (world_of (CleanUp c ch (world_of (Present c ch w))))
       (getDomainAndChallengeFQDN ch).2 (getDomainAndChallengeFQDN ch).1 "TXT"
     = [].
Proof.
  intros Hupsert Hdelete Hread Hkeep Hname Hpresent.
  assert (records_at (world_of (Present c ch w))
            (getDomainAndChallengeFQDN ch).2 (getDomainAndChallengeFQDN ch).1
            "TXT"
          = [ {| RrsetType := "TXT"; RrsetTTL := GandiMinTtl;
                 RrsetName := (getDomainAndChallengeFQDN ch).1;
                 RrsetValues := [Key ch] |} ]) as Hheld.
  { revert Hpresent.
    along_runs Present_runs c ch w; intros Hout; try done. by eapply Hupsert. }
  clear Hpresent. revert Hheld.
  generalize (world_of (Present c ch w)). intros w1 Hheld.
  pose proof (client_keeps_records records_at c (Config ch)
                (ResourceNamespace ch) w1 Hkeep
                (getDomainAndChallengeFQDN ch).2
                (getDomainAndChallengeFQDN ch).1 "TXT") as Hsame.
  pose proof (CleanUp_mutations c ch w1) as Hmut.
  revert Hsame Hmut.
  destruct (CleanUp_runs c ch w1) as [ | | | ? ? ? rec ? Hc Hr Hf
                                     | ? ? ? rec ? err ? Hc Hr Hf Hd ];
    rewrite ?Hc; unfold world_of, trace_of, outcome_of; simpl;
    intros Hsame Hmut Hout; try done.
  - apply Hread in Hr as [_ Hfirst].
    rewrite (Hfirst _ [] (eq_trans Hsame Hheld)) in Hf.
    apply record_found_false in Hf as [Hf | Hf]; by simplify_eq/=.
  - destruct err; [done|]. split; [|by eapply Hdelete].
    pose proof (client_trace_quiet c (Config ch) (ResourceNamespace ch) w1)
      as [_ Hquiet].
    rewrite Hc in Hquiet. unfold trace_of in Hquiet; simpl in Hquiet.
    unfold reads in Hmut, Hquiet. rewrite omap_app, Hquiet in Hmut.
    simpl in Hmut. by rewrite Hf in Hmut.
Qed.

End SolverFacts.

(** ** The properties on the model *)

(** The provider of the model replaces on update. *)
Lemma Model_update_replaces : upsert_replaces Model.records_at.
Proof.
  intros g domain name rtype ttl values w resp w' Hupd Hcode.
  cbn in Hupd. unfold Model.update_record in Hupd.
  destruct (String.eqb _ _); [|done].
  destruct (Model.locked w); simplify_eq/=.
  unfold Model.records_at; simpl.
  rewrite filter_cons_True by done. simpl. f_equal.
  induction (Model.rrsets w) as [|x l IH]; [done|].
  destruct (decide (Model.rrset_key x = (domain, name, rtype))) as [Hx|Hx].
  - by rewrite (filter_cons_False _ x l) by tauto.
  - rewrite (filter_cons_True _ x l) by done.
    by rewrite filter_cons_False by tauto.
Qed.

Lemma Present_idempotent_witness :
  outcome_of (Present Model.solver Model.request (Model.world Model.stale))
  = Returned None
  /\ Model.records_at
       (world_of
          (Present Model.solver Model.request
             (world_of
                (Present Model.solver Model.request
                   (Model.world Model.stale)))))
       "example.com" "_acme-challenge" "TXT"
     = [ {| RrsetType := "TXT"; RrsetTTL := 300;
            RrsetName := "_acme-challenge"; RrsetValues := ["abc123"] |} ].
Proof.
  destruct (Present_idempotent Model.records_at Model.solver Model.request
              (Model.world Model.stale) Model.gandiClient Model.gandiClient
              Model_update_replaces)
    as (H1 & _ & _ & _ & H5); [vm_compute; reflexivity..|].
  split; [exact H1 | exact H5].
Defined.

Lemma CleanUp_contract_witness :
  (outcome_of (CleanUp Model.solver Model.request (Model.world [])) = Returned None
   /\ mutations (trace_of (CleanUp Model.solver Model.request (Model.world [])))
      = [])
  /\ mutations
       (trace_of (CleanUp Model.solver Model.request (Model.world Model.stale)))
     = [Delete "example.com" "_acme-challenge" "TXT"].
Proof.
  pose (client := fun l =>
          getGandiClient Model.solver (Config Model.request)
            (ResourceNamespace Model.request) (Model.world l)).
  split.
  - destruct (CleanUp_contract Model.solver Model.request (Model.world [])
                Model.gandiClient (world_of (client [])) (trace_of (client []))
                Model.DomainRecord_zero (Model.world []) eq_refl eq_refl)
      as [Hnone _].
    destruct (Hnone (or_introl eq_refl)) as [Hrun Hmut].
    split; [by rewrite Hrun | exact Hmut].
  - destruct (CleanUp_contract Model.solver Model.request
                (Model.world Model.stale) Model.gandiClient
                (world_of (client Model.stale)) (trace_of (client Model.stale))
                {| RrsetType := "TXT"; RrsetTTL := 600;
                   RrsetName := "_acme-challenge";
                   RrsetValues := ["old1"; "old2"] |}
                (Model.world Model.stale) eq_refl eq_refl)
      as [_ Hsome].
    destruct Hsome as (err & w3 & _ & _ & Hmut); [discriminate..|].
    exact Hmut.
Defined.

Lemma upsert_ttl_floor_witness :
  In (EvUpdateRecord Model.gandiClient "example.com" "_acme-challenge" "TXT"
        300 ["abc123"] {| Code := 200; Message := "DNS Record Created" |} None)
     (trace_of (Present Model.solver Model.request (Model.world [])))
  /\ 300 = GandiMinTtl /\ 300 <= 300.
Proof.
  assert (In (EvUpdateRecord Model.gandiClient "example.com" "_acme-challenge"
                "TXT" 300 ["abc123"]
                {| Code := 200; Message := "DNS Record Created" |} None)
             (trace_of (Present Model.solver Model.request (Model.world []))))
    as Hin by (vm_compute; tauto).
  split; [exact Hin|].
  exact (upsert_ttl_floor Model.solver Model.request (Model.world []) _ _ _ _
           _ _ _ _ (or_introl Hin)).
Defined.

Lemma absent_config_is_reported_witness :
  Present Model.solver_without_client Model.request_without_config
    (Model.world Model.stale)
  = (Returned (Some "unable to get Gandi client: no configuration provided: nil"),
     Model.world Model.stale, []).
Proof.
  exact (proj1 (absent_config_is_reported Model.solver_without_client
                  Model.request_without_config (Model.world Model.stale)
                  eq_refl)).
Defined.



Lemma missing_secret_key_is_distinct_witness :
  exists msg,
    outcome_of (getGandiClient Model.solver (Config Model.request) "ns1"
                  Model.keyless_world)
    = Returned (inr msg)
    /\ strings.Contains msg (Model.quote "token") = true
    /\ strings.HasPrefix msg "unable to get secret" = false.
Proof.
  destruct (missing_secret_key_is_distinct Model.solver
              {| Raw := list_byte_of_string Model.scenario_config |} "ns1"
              Model.keyless_world tt
              {| PATSecretRef :=
                   {| LocalObjectRef := {| Name := "gandi-creds" |};
                      Key_ := "token" |} |}
              Model.keyless_secret Model.keyless_world
              eq_refl eq_refl eq_refl eq_refl)
    as (msg & Hout & _ & Hkey & Hother & _).
  exists msg. repeat split; [exact Hout | exact Hkey | exact Hother].
Defined.

Lemma read_before_mutate_witness :
  read_precedes_mutations
    (trace_of (Present Model.solver Model.request (Model.world Model.stale)))
  /\ mutations
       (trace_of (CleanUp Model.solver Model.request (Model.world Model.stale)))
     = mutations
         (trace_of (CleanUp Model.solver Model.request
                      (Model.world (take 1 Model.stale)))).
Proof.
  destruct (read_before_mutate Model.solver Model.request
              (Model.world Model.stale))
    as ((Hpre & _) & _ & _ & _ & _ & Hsame).
  split; [exact Hpre|].
  apply (Hsame Model.solver (Model.world (take 1 Model.stale))
           {| RrsetType := "TXT"; RrsetTTL := 600;
              RrsetName := "_acme-challenge";
              RrsetValues := ["old1"; "old2"] |}).
  - reflexivity.
  - reflexivity.
Defined.

Lemma present_branches_issue_same_call_witness :
  mutations
    (trace_of (Present Model.solver Model.request (Model.world Model.stale)))
  = [Upsert "example.com" "_acme-challenge" "TXT" 300 ["abc123"]]
  /\ mutations (trace_of (Present Model.solver Model.request (Model.world [])))
     = mutations
         (trace_of (Present Model.solver Model.request (Model.world Model.stale))).
Proof.
  exact (present_branches_issue_same_call Model.solver Model.request
           (Model.world Model.stale) Model.solver (Model.world [])
           {| RrsetType := "TXT"; RrsetTTL := 600;
              RrsetName := "_acme-challenge";
              RrsetValues := ["old1"; "old2"] |}
           Model.DomainRecord_zero eq_refl eq_refl eq_refl eq_refl).
Defined.

Lemma upsert_sends_only_the_key_witness :
  Model.records_at
    (world_of (Present Model.solver Model.request (Model.world Model.stale)))
    "example.com" "_acme-challenge" "TXT"
  = [ {| RrsetType := "TXT"; RrsetTTL := 300; RrsetName := "_acme-challenge";
         RrsetValues := ["abc123"] |} ].
Proof.
  exact (proj2 (upsert_sends_only_the_key Model.solver Model.request
                  (Model.world Model.stale))
           Model.records_at Model_update_replaces eq_refl).
Defined.

(** ** More on the split of the challenge name *)

(** X15.  [strings.TrimSuffix] removes the suffix when the string ends with it,
    and only then: the result followed by the suffix is the string, or the
    string does not end with the suffix and is returned as it is. *)
Theorem TrimSuffix_characterised (s suffix : string) :
  (strings.HasSuffix s suffix = true
   /\ strings.TrimSuffix s suffix ++ suffix = s)
  \/ (strings.HasSuffix s suffix = false
      /\ (~ exists p, s = p ++ suffix)
      /\ strings.TrimSuffix s suffix = s).
Proof.
  destruct (strings.HasSuffix s suffix) eqn:Hs.
  - left. split; [done|].
    destruct (HasSuffix_inv s suffix Hs) as [p ->].
    by rewrite TrimSuffix_app.
  - right. split; [done|].
    assert (~ exists p, s = p ++ suffix) as Hno.
    { intros [p ->]. by rewrite HasSuffix_app in Hs. }
    split; [done|]. by apply TrimSuffix_other.
Qed.

(** X16.  The split loses nothing of a name in its zone: when the FQDN is a
    record name, a dot and the dot-terminated zone, the record name, a dot,
    the domain and a dot make the FQDN again. *)
Theorem split_recombines (ch : ChallengeRequest) (q d : string) :
  ResolvedZone ch = d ++ dot ->
  ResolvedFQDN ch = q ++ dot ++ ResolvedZone ch ->
  (getDomainAndChallengeFQDN ch).1 ++ dot
    ++ (getDomainAndChallengeFQDN ch).2 ++ dot
  = ResolvedFQDN ch.
Proof.
  intros Hz Hf. unfold getDomainAndChallengeFQDN; simpl.
  rewrite Hf, <- (app_assoc_s q dot (ResolvedZone ch)).
  rewrite (TrimSuffix_app (q ++ dot)), (TrimSuffix_app q dot).
  by rewrite Hz, TrimSuffix_app, app_assoc_s.
Qed.

(** X17.  A name outside the zone is not cut: when the FQDN does not end with the
    zone, the record name is the whole FQDN without its trailing dot. *)
Theorem split_outside_zone (ch : ChallengeRequest) (q : string) :
  ResolvedFQDN ch = q ++ dot ->
  (~ exists p, ResolvedFQDN ch = p ++ ResolvedZone ch) ->
  (getDomainAndChallengeFQDN ch).1 = q.
Proof.
  intros Hf Hout. unfold getDomainAndChallengeFQDN; simpl.
  rewrite (TrimSuffix_other _ _ Hout), Hf. apply TrimSuffix_app.
Qed.

(** X18.  At the apex of the zone the record name is empty: when the FQDN is the
    zone itself, the split returns the empty name. *)
Theorem split_at_apex (ch : ChallengeRequest) :
  ResolvedFQDN ch = ResolvedZone ch ->
  (getDomainAndChallengeFQDN ch).1 = EmptyString.
Proof.
  intros Hf. unfold getDomainAndChallengeFQDN; simpl.
  rewrite Hf. rewrite <- (app_nil_s (ResolvedZone ch)) at 1.
  by rewrite TrimSuffix_app.
Qed.

(** ** The further properties on the model *)

Lemma Model_delete_removes : delete_removes Model.records_at.
Proof.
  intros g domain name rtype w w' Hdel.
  cbn in Hdel. unfold Model.delete_record in Hdel.
  destruct (String.eqb _ _); simplify_eq/=.
  unfold Model.records_at; simpl.
  induction (Model.rrsets w) as [|x l IH]; [done|].
  destruct (decide (Model.rrset_key x = (domain, name, rtype))) as [Hx|Hx].
  - by rewrite (filter_cons_False _ x l) by tauto.
  - rewrite (filter_cons_True _ x l) by done.
    by rewrite filter_cons_False by tauto.
Qed.

Lemma Model_read_reports : read_reports Model.records_at.
Proof.
  intros g domain name rtype w rec w' Hget.
  cbn in Hget. unfold Model.get_record in Hget.
  destruct (String.eqb _ _); [|done].
  destruct (Model.records_at w domain name rtype) as [|r rs] eqn:Hheld;
    simplify_eq/=; split; try done.
  by intros ? ? [= <- <-].
Qed.

Lemma Model_secrets_keep_records : secrets_keep_records Model.records_at.
Proof.
  intros cs namespace name w r w' Hget d n ty.
  cbn in Hget. unfold Model.secrets_get in Hget.
  by destruct (Model.secrets w !! (namespace, name)); simplify_eq/=.
Qed.

Lemma credential_failure_stops_the_run_witness :
  CleanUp Model.solver Model.request_without_config (Model.world Model.stale)
  = (Returned (Some "unable to get Gandi client: no configuration provided: nil"),
     Model.world Model.stale, []).
Proof.
  destruct (credential_failure_stops_the_run Model.solver
              Model.request_without_config (Model.world Model.stale)
              "no configuration provided: nil" eq_refl) as [[HP HC] _].
  rewrite HC. exact HP.
Defined.

Lemma malformed_config_is_reported_witness :
  Present Model.solver_without_client Cases.request_with_bad_config
    (Model.world Model.stale)
  = (Returned
       (Some ("unable to get Gandi client: error decoding solver config: "
              ++ "invalid character looking for beginning of value")),
     Model.world Model.stale, []).
Proof.
  exact (proj1 (malformed_config_is_reported Model.solver_without_client
                  Cases.request_with_bad_config (Model.world Model.stale)
                  {| Raw := list_byte_of_string "PATSecretRef" |}
                  gandiDNSProviderConfig_zero
                  "invalid character looking for beginning of value"
                  eq_refl eq_refl)).
Defined.

Lemma secret_lookup_failure_is_reported_witness :
  outcome_of (CleanUp Model.solver Model.request Cases.world_without_secret)
  = Returned
      (Some ("unable to get Gandi client: unable to get secret `gandi-creds`; "
             ++ "secrets gandi-creds not found"))
  /\ length (trace_of (CleanUp Model.solver Model.request
                         Cases.world_without_secret)) = 1%nat.
Proof.
  destruct (secret_lookup_failure_is_reported Model.solver Model.request
              Cases.world_without_secret
              {| Raw := list_byte_of_string Model.scenario_config |}
              {| PATSecretRef :=
                   {| LocalObjectRef := {| Name := "gandi-creds" |};
                      Key_ := "token" |} |}
              tt {| Data := ∅ |} "secrets gandi-creds not found"
              Cases.world_without_secret eq_refl eq_refl eq_refl eq_refl)
    as [HP HC].
  rewrite HC, HP. split; reflexivity.
Defined.

Lemma client_token_is_secret_bytes_witness :
  exists sec,
    trace_of (getGandiClient Model.solver (Config Model.request) "ns1"
                (Model.world []))
    = [EvSecretsGet "ns1" "gandi-creds" sec None]
    /\ Data sec !! "token" = Some (list_byte_of_string "s3cr3t").
Proof.
  destruct (client_token_is_secret_bytes Model.solver (Config Model.request)
              "ns1" (Model.world []) Model.gandiClient eq_refl)
    as (j & cfg & sec & secBytes & Hj & Hcfg & Ht & Hkey & Hbytes).
  injection Hj as <-. injection Hcfg as <-.
  exists sec. split; [exact Ht|]. rewrite <- Hbytes in Hkey. exact Hkey.
Defined.

Lemma uninitialized_solver_panics_witness :
  Present Model.solver_without_client Model.request (Model.world Model.stale)
  = (Panicked, Model.world Model.stale, []).
Proof.
  exact (proj1 (uninitialized_solver_panics Model.solver_without_client
                  Model.request (Model.world Model.stale)
                  {| Raw := list_byte_of_string Model.scenario_config |}
                  {| PATSecretRef :=
                       {| LocalObjectRef := {| Name := "gandi-creds" |};
                          Key_ := "token" |} |}
                  eq_refl eq_refl eq_refl)).
Defined.

Lemma initialized_solver_never_panics_witness :
  outcome_of
    (Present (Initialize Cases.NewForConfig Model.solver_without_client true).1
       Model.request (Model.world Model.stale))
  <> Panicked
  /\ (Initialize Cases.NewForConfig Model.solver_without_client false).1
     = Model.solver_without_client.
Proof.
  destruct (initialized_solver_never_panics Cases.NewForConfig
              Model.solver_without_client true) as [Hok _].
  destruct (initialized_solver_never_panics Cases.NewForConfig
              Model.solver_without_client false) as [_ Hfail].
  split.
  - apply (Hok _ eq_refl); discriminate.
  - exact (proj1 (Hfail _ _ eq_refl)).
Defined.

Lemma failed_read_stops_the_run_witness :
  outcome_of (Present Model.solver Model.request Cases.world_with_stale_token)
  = Returned
      (Some "present: pre: unable to check TXT record: 401: Unauthorized")
  /\ mutations
       (trace_of (Present Model.solver Model.request
                    Cases.world_with_stale_token)) = [].
Proof.
  apply (proj1 (failed_read_stops_the_run Model.solver Model.request
                  Cases.world_with_stale_token Model.gandiClient "example.com"
                  "_acme-challenge" "TXT" Model.DomainRecord_zero
                  Model.unauthorized)).
  vm_compute. tauto.
Defined.

Lemma failed_upsert_is_reported_witness :
  outcome_of
    (@Present _ Cases.flaky Cases.flaky_solver Model.request
       (Model.world Model.stale))
  = Returned
      (Some "unable to change TXT record: context deadline exceeded")
  /\ outcome_of
       (@Present _ Cases.flaky Cases.flaky_solver Model.request (Model.world []))
     = Returned
         (Some "unable to create TXT record: context deadline exceeded").
Proof.
  split.
  - destruct (@failed_upsert_is_reported _ Cases.flaky Cases.flaky_solver
                Model.request (Model.world Model.stale) Model.gandiClient
                "example.com" "_acme-challenge" "TXT" 300 ["abc123"]
                Cases.timeout_response "context deadline exceeded")
      as (rec & Hread & Hout); [vm_compute; tauto|].
    injection Hread as <-. exact Hout.
  - destruct (@failed_upsert_is_reported _ Cases.flaky Cases.flaky_solver
                Model.request (Model.world []) Model.gandiClient
                "example.com" "_acme-challenge" "TXT" 300 ["abc123"]
                Cases.timeout_response "context deadline exceeded")
      as (rec & Hread & Hout); [vm_compute; tauto|].
    injection Hread as <-. exact Hout.
Defined.

Lemma Present_success_means_upsert_accepted_witness :
  length (trace_of (Present Model.solver Model.request (Model.world Model.stale)))
  = 3%nat.
Proof.
  destruct (Present_success_means_upsert_accepted Model.solver Model.request
              (Model.world Model.stale) eq_refl)
    as (name & sec & g & rec & resp & -> & _).
  reflexivity.
Defined.

Lemma CleanUp_success_means_absent_or_deleted_witness :
  (2 <= length (trace_of (CleanUp Model.solver Model.request (Model.world []))))%nat.
Proof.
  destruct (CleanUp_success_means_absent_or_deleted Model.solver Model.request
              (Model.world []) eq_refl)
    as (name & sec & g & rec & [[_ ->] | [_ ->]]); simpl; lia.
Defined.

Lemma calls_are_bounded_witness :
  (length (trace_of (Present Model.solver Model.request (Model.world Model.stale)))
   <= 3)%nat
  /\ filter (fun ev => mutation_of ev = None)
       (trace_of (Present Model.solver Model.request (Model.world Model.stale)))
     = filter (fun ev => mutation_of ev = None)
         (trace_of (CleanUp Model.solver Model.request (Model.world Model.stale))).
Proof.
  destruct (calls_are_bounded Model.solver Model.request
              (Model.world Model.stale)) as ((Hlen & _) & _ & Hsame).
  split; [exact Hlen | exact Hsame].
Defined.

Lemma provider_calls_use_the_token_just_read_witness :
  exists name sec key,
    head (trace_of (CleanUp Model.solver Model.request (Model.world Model.stale)))
    = Some (EvSecretsGet "ns1" name sec None)
    /\ Data sec !! key = Some (list_byte_of_string "s3cr3t").
Proof.
  destruct (provider_calls_use_the_token_just_read Model.solver Model.request
              (Model.world Model.stale)
              (EvDeleteRecord Model.gandiClient "example.com" "_acme-challenge"
                 "TXT" None)
              Model.gandiClient)
    as (name & sec & key & [_ Hhead] & Hkey);
    [right; vm_compute; tauto | reflexivity |].
  exists name, sec, key. split; [exact Hhead | exact Hkey].
Defined.

Lemma error_heading_tells_the_stage_witness :
  omap event_client
    (trace_of (Present Model.solver Model.request Cases.world_without_secret))
  = [].
Proof.
  apply (proj1 (error_heading_tells_the_stage Model.solver Model.request
                  Cases.world_without_secret
                  ("unable to get Gandi client: "
                   ++ "unable to get secret `gandi-creds`; "
                   ++ "secrets gandi-creds not found"))); reflexivity.
Defined.

Lemma CleanUp_undoes_Present_witness :
  Model.records_at
    (world_of
       (CleanUp Model.solver Model.request
          (world_of (Present Model.solver Model.request
                       (Model.world Model.stale)))))
    "example.com" "_acme-challenge" "TXT"
  = [].
Proof.
  exact (proj2 (CleanUp_undoes_Present Model.records_at Model.solver
                  Model.request (Model.world Model.stale)
                  Model_update_replaces Model_delete_removes
                  Model_read_reports Model_secrets_keep_records
                  ltac:(discriminate) eq_refl eq_refl)).
Defined.

Lemma TrimSuffix_characterised_witness :
  strings.TrimSuffix "example.com." dot ++ dot = "example.com."
  /\ strings.TrimSuffix "example.com" dot = "example.com".
Proof.
  split.
  - destruct (TrimSuffix_characterised "example.com." dot)
      as [[_ Hcut] | [Hno _]]; [exact Hcut | discriminate Hno].
  - destruct (TrimSuffix_characterised "example.com" dot)
      as [[Hyes _] | (_ & _ & Hkept)]; [discriminate Hyes | exact Hkept].
Defined.

Lemma split_recombines_witness :
  (getDomainAndChallengeFQDN Model.request).1 ++ dot
    ++ (getDomainAndChallengeFQDN Model.request).2 ++ dot
  = "_acme-challenge.example.com.".
Proof.
  exact (split_recombines Model.request "_acme-challenge" "example.com"
           eq_refl eq_refl).
Defined.

Lemma split_outside_zone_witness :
  (getDomainAndChallengeFQDN
     {| ResourceNamespace := "ns1"; ResolvedZone := "example.com.";
        ResolvedFQDN := "_acme-challenge.example.org."; Key := "abc123";
        Config := None |}).1
  = "_acme-challenge.example.org".
Proof.
  apply (split_outside_zone
           {| ResourceNamespace := "ns1"; ResolvedZone := "example.com.";
              ResolvedFQDN := "_acme-challenge.example.org."; Key := "abc123";
              Config := None |} "_acme-challenge.example.org" eq_refl).
  intros [p Hp]. simpl in Hp.
  apply (f_equal (fun s => strings.HasSuffix s "example.com.")) in Hp.
  rewrite HasSuffix_app in Hp. discriminate Hp.
Defined.

Lemma split_at_apex_witness :
  (getDomainAndChallengeFQDN
     {| ResourceNamespace := "ns1"; ResolvedZone := "example.com.";
        ResolvedFQDN := "example.com."; Key := "abc123"; Config := None |}).1
  = EmptyString.
Proof.
  exact (split_at_apex
           {| ResourceNamespace := "ns1"; ResolvedZone := "example.com.";
              ResolvedFQDN := "example.com."; Key := "abc123"; Config := None |}
           eq_refl).
Defined.
